(** * stellar-rent: wallet hook and blockchain verification client

    A shallow embedding of

    - [apps/web/src/services/blockchain.ts] (module [Blockchain]), and
    - the [useWallet] React hook (module [Wallet]),

    together with the properties the specification states about them.
    JavaScript values are modelled as follows: a [string | undefined | null]
    is an [option string], the truthiness test of [if (x)] and [x || y] is
    [Js.truthy], a rejected promise or a [throw] is the [Js.Throw] outcome,
    and strings are sequences of code units with the indexing of
    [String.prototype.slice]. *)

From Stdlib Require Import String Ascii List ZArith Bool Lia.
Import ListNotations.
Open Scope string_scope.

(* ================================================================== *)
(** ** JavaScript primitives used by both files *)
(* ================================================================== *)

Module Js.

(** Truthiness of a value of type [string | undefined | null]: the empty
    string, [undefined] and [null] are falsy. *)
Definition truthy (v : option string) : bool :=
  match v with
  | Some s => negb (s =? "")
  | None => false
  end.

(** [v || null] *)
Definition orNull (v : option string) : option string :=
  if truthy v then v else None.

(** [v || d] where [d] is a string *)
Definition orElse (v : option string) (d : string) : string :=
  match v with
  | Some s => if s =? "" then d else s
  | None => d
  end.

(** [o?.f] *)
Definition optChain {A B : Type} (o : option A) (f : A -> option B) : option B :=
  match o with
  | Some a => f a
  | None => None
  end.

(** What a [catch (error)] clause can receive: an [Error] instance with
    its message, or any other thrown value. *)
Inductive thrown : Type :=
| ErrorObject (message : string)
| OtherValue.

(** [error instanceof Error ? error.message : fallback] *)
Definition messageOr (e : thrown) (fallback : string) : string :=
  match e with
  | ErrorObject m => m
  | OtherValue => fallback
  end.

(** The settled state of an awaited promise, or the completion of a
    block: a value or a thrown exception. *)
Inductive outcome (A : Type) : Type :=
| Ok (a : A)
| Throw (e : thrown).
Arguments Ok {A} a.
Arguments Throw {A} e.

Definition bind {A B : Type} (m : outcome A) (k : A -> outcome B) : outcome B :=
  match m with
  | Ok a => k a
  | Throw e => Throw e
  end.

(** [try { m } catch (error) { h error }] *)
Definition tryCatch {A : Type} (m : outcome A) (h : thrown -> outcome A) : outcome A :=
  match m with
  | Ok a => Ok a
  | Throw e => h e
  end.

(** Relative index resolution of [String.prototype.slice]: a negative
    index counts from the end, and the result is clamped to [0, len]. *)
Definition relativeIndex (len i : Z) : Z :=
  if (i <? 0)%Z then Z.max (len + i) 0 else Z.min i len.

(** [s.slice(start, stop)]; [stop = None] is the one-argument form. *)
Definition slice (s : string) (start : Z) (stop : option Z) : string :=
  let len := Z.of_nat (String.length s) in
  let from := relativeIndex len start in
  let to :=
    match stop with
    | Some e => relativeIndex len e
    | None => len
    end in
  substring (Z.to_nat from) (Z.to_nat (to - from)) s.

(** [s.replace(/\/+$/, '')]: the leftmost match of "one or more slashes
    followed by the end of input" is the whole trailing run of slashes. *)
Fixpoint stripTrailingSlashes (s : string) : string :=
  match s with
  | EmptyString => EmptyString
  | String c rest =>
      match stripTrailingSlashes rest with
      | EmptyString => if Ascii.eqb c "/" then EmptyString else String c EmptyString
      | kept => String c kept
      end
  end.

(** A string of [k] slashes. *)
Fixpoint slashes (k : nat) : string :=
  match k with
  | O => EmptyString
  | S k' => String "/" (slashes k')
  end.

(** The last code unit of a string, if any. *)
Fixpoint lastChar (s : string) : option ascii :=
  match s with
  | EmptyString => None
  | String c EmptyString => Some c
  | String _ rest => lastChar rest
  end.

End Js.

Declare Scope js_scope.
Delimit Scope js_scope with js.
Notation "x <- m ;; k" := (Js.bind m (fun x => k))
  (at level 61, m at next level, right associativity) : js_scope.

(* ================================================================== *)
(** ** services/blockchain.ts *)
(* ================================================================== *)

Module Blockchain.

Inductive PropertyStatus : Type := Available | Booked | Maintenance | Inactive.

Record BlockchainData : Type := {
  id : string;
  data_hash : string;
  owner : string;
  status : PropertyStatus
}.

Record BlockchainVerificationResult : Type := {
  isValid : bool;
  blockchainData : option BlockchainData
}.

Record PropertyBlockchainStatus : Type := {
  isVerified : bool;
  blockchainHash : option string;
  lastVerified : option string;
  error : option string
}.

(** The envelope [apiUtils.request] resolves with. *)
Module Envelope.
Record t : Type := {
  success : bool;
  data : option BlockchainVerificationResult;
  error : option string;
  message : option string
}.
End Envelope.

Section Client.

(** [apiUtils.request]: for each endpoint, the promise either rejects
    or resolves with an envelope (or with [null]/[undefined]). *)
Variable request : string -> Js.outcome (option Envelope.t).

(** [new Date().toISOString()] at the time of the call. *)
Variable now : string.

Definition verifyPropertyWithBlockchain (propertyId : string)
  : Js.outcome BlockchainVerificationResult :=
  Js.tryCatch
    (result <- request ("/properties/" ++ propertyId ++ "/verify") ;;
     match result with
     | Some {| Envelope.success := true; Envelope.data := Some d |} => Js.Ok d
     | _ =>
         Js.Throw
           (Js.ErrorObject
              (Js.orElse (Js.optChain result Envelope.error) "Verification failed"))
     end)%js
    (fun _ => Js.Ok {| isValid := false; blockchainData := None |}).

Definition getPropertyBlockchainStatus (propertyId : string)
  : Js.outcome PropertyBlockchainStatus :=
  Js.tryCatch
    (verificationResult <- verifyPropertyWithBlockchain propertyId ;;
     Js.Ok {|
       isVerified := isValid verificationResult;
       blockchainHash :=
         Js.optChain (blockchainData verificationResult) (fun b => Some (data_hash b));
       lastVerified := Some now;
       error :=
         if isValid verificationResult then None
         else Some "Data integrity check failed"
     |})%js
    (fun e =>
       Js.Ok {|
         isVerified := false;
         blockchainHash := None;
         lastVerified := None;
         error := Some (Js.messageOr e "Unknown error")
       |}).

End Client.

Inductive Color : Type := green | red | yellow.

Record Badge : Type := {
  text : string;
  color : Color;
  icon : string
}.

Definition formatBlockchainStatus (status : PropertyBlockchainStatus) : Badge :=
  if Js.truthy (error status) then
    {| text := "Verification Failed"; color := red; icon := "❌" |}
  else if isVerified status then
    {| text := "Verified on Blockchain"; color := green; icon := "✅" |}
  else
    {| text := "Not Verified"; color := yellow; icon := "⚠️" |}.

Definition truncateHash (hash : string) (length : Z) : string :=
  if (Z.of_nat (String.length hash) <=? length * 2)%Z then hash
  else Js.slice hash 0 (Some length) ++ "..." ++ Js.slice hash (- length) None.

(** The default parameter [length = 8]. *)
Definition truncateHashDefault (hash : string) : string := truncateHash hash 8.

Inductive ExplorerResource : Type := tx | contract | account | asset.

Definition resourceName (r : ExplorerResource) : string :=
  match r with
  | tx => "tx"
  | contract => "contract"
  | account => "account"
  | asset => "asset"
  end.

Inductive Network : Type := testnet | public.

Definition networkName (n : Network) : string :=
  match n with
  | testnet => "testnet"
  | public => "public"
  end.

Record ExplorerOpts : Type := {
  resourceType : option ExplorerResource;
  network : option Network;
  baseUrl : option string
}.

(** [process.env]: a variable is a string or is undefined. *)
Definition ProcessEnv : Type := string -> option string.

Definition getBlockchainExplorerUrl
    (env : ProcessEnv) (resourceId : string) (opts : option ExplorerOpts) : string :=
  let base :=
    Js.stripTrailingSlashes
      (Js.orElse (Js.optChain opts baseUrl)
         (Js.orElse (env "NEXT_PUBLIC_STELLAR_EXPLORER_URL")
            "https://stellar.expert/explorer")) in
  let network :=
    Js.orElse (option_map networkName (Js.optChain opts network))
      (Js.orElse (env "NEXT_PUBLIC_STELLAR_NETWORK") "testnet") in
  let type := Js.orElse (option_map resourceName (Js.optChain opts resourceType)) "tx" in
  base ++ "/" ++ network ++ "/" ++ type ++ "/" ++ resourceId.

Definition getBlockchainNetwork (env : ProcessEnv) : string :=
  Js.orElse (env "NEXT_PUBLIC_STELLAR_NETWORK") "testnet".

End Blockchain.

(* ================================================================== *)
(** ** The useWallet hook *)
(* ================================================================== *)

Module Wallet.

Record WalletState : Type := {
  isConnected : bool;
  publicKey : option string;
  network : option string;
  networkPassphrase : option string;
  isInstalled : bool;
  isAllowed : bool;
  isLoading : bool;
  error : option string;
  usdcBalance : option string
}.

(** The argument of [useState]. *)
Definition initialState : WalletState := {|
  isConnected := false;
  publicKey := None;
  network := None;
  networkPassphrase := None;
  isInstalled := false;
  isAllowed := false;
  isLoading := true;
  error := None;
  usdcBalance := None
|}.

(** Field overrides of an object spread: [{...prev, f: v}] is
    [prev |> set_f v]. *)
Definition set_isConnected (v : bool) (s : WalletState) : WalletState :=
  Build_WalletState v (publicKey s) (network s) (networkPassphrase s)
    (isInstalled s) (isAllowed s) (isLoading s) (error s) (usdcBalance s).
Definition set_publicKey (v : option string) (s : WalletState) : WalletState :=
  Build_WalletState (isConnected s) v (network s) (networkPassphrase s)
    (isInstalled s) (isAllowed s) (isLoading s) (error s) (usdcBalance s).
Definition set_network (v : option string) (s : WalletState) : WalletState :=
  Build_WalletState (isConnected s) (publicKey s) v (networkPassphrase s)
    (isInstalled s) (isAllowed s) (isLoading s) (error s) (usdcBalance s).
Definition set_networkPassphrase (v : option string) (s : WalletState) : WalletState :=
  Build_WalletState (isConnected s) (publicKey s) (network s) v
    (isInstalled s) (isAllowed s) (isLoading s) (error s) (usdcBalance s).
Definition set_isInstalled (v : bool) (s : WalletState) : WalletState :=
  Build_WalletState (isConnected s) (publicKey s) (network s) (networkPassphrase s)
    v (isAllowed s) (isLoading s) (error s) (usdcBalance s).
Definition set_isAllowed (v : bool) (s : WalletState) : WalletState :=
  Build_WalletState (isConnected s) (publicKey s) (network s) (networkPassphrase s)
    (isInstalled s) v (isLoading s) (error s) (usdcBalance s).
Definition set_isLoading (v : bool) (s : WalletState) : WalletState :=
  Build_WalletState (isConnected s) (publicKey s) (network s) (networkPassphrase s)
    (isInstalled s) (isAllowed s) v (error s) (usdcBalance s).
Definition set_error (v : option string) (s : WalletState) : WalletState :=
  Build_WalletState (isConnected s) (publicKey s) (network s) (networkPassphrase s)
    (isInstalled s) (isAllowed s) (isLoading s) v (usdcBalance s).
Definition set_usdcBalance (v : option string) (s : WalletState) : WalletState :=
  Build_WalletState (isConnected s) (publicKey s) (network s) (networkPassphrase s)
    (isInstalled s) (isAllowed s) (isLoading s) (error s) v.

(** *** What the extension and the balance service answer *)

Module ConnectionStatus.
Record t : Type := { isInstalled : bool; isConnected : bool; error : option string }.
End ConnectionStatus.

Module PermissionStatus.
Record t : Type := { isAllowed : bool }.
End PermissionStatus.

Module AddressResult.
Record t : Type := { address : option string }.
End AddressResult.

Module NetworkResult.
Record t : Type := { network : option string; networkPassphrase : option string }.
End NetworkResult.

Module ConnectResult.
Record t : Type := { address : option string; error : option string }.
End ConnectResult.

(** The imported functions the hook can call. *)
Inductive ExtCall : Type :=
| CheckFreighterConnection
| CheckFreighterPermission
| ConnectFreighter
| GetFreighterAddress
| GetFreighterNetwork
| GetUSDCBalance (address : string).

(** The surroundings of one run of an operation: how each imported
    function settles, and when (if ever) the effect's cleanup sets
    [mounted = false]: [unmountAt = Some k] says the cleanup has run by
    the time the [k]-th [await] of the run resumes. *)
Record Environment : Type := {
  checkFreighterConnection : Js.outcome ConnectionStatus.t;
  checkFreighterPermission : Js.outcome PermissionStatus.t;
  connectFreighter : Js.outcome ConnectResult.t;
  getFreighterAddress : Js.outcome AddressResult.t;
  getFreighterNetwork : Js.outcome NetworkResult.t;
  getUSDCBalance : string -> Js.outcome (option string);
  unmountAt : option nat
}.

(** *** Async functions that call the extension and commit state *)

Inductive Event : Type :=
| Called (f : ExtCall)
| Commit (update : WalletState -> WalletState).

(** A finished run: its completion, what it did in order, and how many
    [await]s it went through. *)
Record Run (A : Type) : Type := {
  result : Js.outcome A;
  events : list Event;
  awaits : nat
}.
Arguments result {A} r.
Arguments events {A} r.
Arguments awaits {A} r.

Definition Async (A : Type) : Type := nat -> Run A.

Definition ret {A : Type} (a : A) : Async A :=
  fun n => {| result := Js.Ok a; events := []; awaits := n |}.

Definition throw {A : Type} (e : Js.thrown) : Async A :=
  fun n => {| result := Js.Throw e; events := []; awaits := n |}.

Definition bind {A B : Type} (m : Async A) (k : A -> Async B) : Async B :=
  fun n =>
    match m n with
    | {| result := Js.Ok a; events := evs; awaits := n' |} =>
        match k a n' with
        | {| result := r; events := evs'; awaits := n'' |} =>
            {| result := r; events := evs ++ evs'; awaits := n'' |}
        end
    | {| result := Js.Throw e; events := evs; awaits := n' |} =>
        {| result := Js.Throw e; events := evs; awaits := n' |}
    end.

(** [try { m } catch (error) { h error }] *)
Definition tryCatch {A : Type} (m : Async A) (h : Js.thrown -> Async A) : Async A :=
  fun n =>
    match m n with
    | {| result := Js.Ok a; events := evs; awaits := n' |} =>
        {| result := Js.Ok a; events := evs; awaits := n' |}
    | {| result := Js.Throw e; events := evs; awaits := n' |} =>
        match h e n' with
        | {| result := r; events := evs'; awaits := n'' |} =>
            {| result := r; events := evs ++ evs'; awaits := n'' |}
        end
    end.

(** [try { m } finally { f }] *)
Definition tryFinally {A : Type} (m : Async A) (f : Async unit) : Async A :=
  fun n =>
    match m n with
    | {| result := r; events := evs; awaits := n' |} =>
        match f n' with
        | {| result := Js.Ok _; events := evs'; awaits := n'' |} =>
            {| result := r; events := evs ++ evs'; awaits := n'' |}
        | {| result := Js.Throw e; events := evs'; awaits := n'' |} =>
            {| result := Js.Throw e; events := evs ++ evs'; awaits := n'' |}
        end
    end.

(** [await f()] where [f] settles as [o]. *)
Definition await {A : Type} (f : ExtCall) (o : Js.outcome A) : Async A :=
  fun n => {| result := o; events := [Called f]; awaits := S n |}.

(** [await Promise.all([f(), g()])]: both functions are called before
    anything is awaited.  When both reject the model reports the first
    in array order. *)
Definition awaitAll2 {A B : Type}
    (f : ExtCall) (a : Js.outcome A) (g : ExtCall) (b : Js.outcome B) : Async (A * B) :=
  fun n =>
    {| result :=
         match a, b with
         | Js.Ok x, Js.Ok y => Js.Ok (x, y)
         | Js.Throw e, _ => Js.Throw e
         | _, Js.Throw e => Js.Throw e
         end;
       events := [Called f; Called g];
       awaits := S n |}.

Definition awaitAll3 {A B C : Type}
    (f : ExtCall) (a : Js.outcome A) (g : ExtCall) (b : Js.outcome B)
    (h : ExtCall) (c : Js.outcome C) : Async (A * B * C) :=
  fun n =>
    {| result :=
         match a, b, c with
         | Js.Ok x, Js.Ok y, Js.Ok z => Js.Ok (x, y, z)
         | Js.Throw e, _, _ => Js.Throw e
         | _, Js.Throw e, _ => Js.Throw e
         | _, _, Js.Throw e => Js.Throw e
         end;
       events := [Called f; Called g; Called h];
       awaits := S n |}.

Definition setWalletState (update : WalletState -> WalletState) : Async unit :=
  fun n => {| result := Js.Ok tt; events := [Commit update]; awaits := n |}.

(** The value of the [mounted] flag once [n] awaits have resumed. *)
Definition mountedAfter (env : Environment) (n : nat) : bool :=
  match unmountAt env with
  | None => true
  | Some k => Nat.ltb n k
  end.

Definition mounted (env : Environment) : Async bool :=
  fun n => {| result := Js.Ok (mountedAfter env n); events := []; awaits := n |}.

Definition run {A : Type} (m : Async A) : Run A := m 0.

(** React applies the queued updates in order. *)
Fixpoint replay (evs : list Event) (s : WalletState) : WalletState :=
  match evs with
  | [] => s
  | Called _ :: rest => replay rest s
  | Commit update :: rest => replay rest (update s)
  end.

Definition finalState {A : Type} (r : Run A) (prev : WalletState) : WalletState :=
  replay (events r) prev.

Fixpoint calls (evs : list Event) : list ExtCall :=
  match evs with
  | [] => []
  | Called f :: rest => f :: calls rest
  | Commit _ :: rest => calls rest
  end.

(** How many times a run called [setWalletState]. *)
Fixpoint commitCount (evs : list Event) : nat :=
  match evs with
  | [] => 0
  | Called _ :: rest => commitCount rest
  | Commit _ :: rest => S (commitCount rest)
  end.

Declare Scope async_scope.
Delimit Scope async_scope with async.
Notation "x <- m ;; k" := (bind m (fun x => k))
  (at level 61, m at next level, right associativity) : async_scope.
Notation "' p <- m ;; k" := (bind m (fun p => k))
  (at level 61, p pattern, m at next level, right associativity) : async_scope.
Notation "m ;; k" := (bind m (fun _ => k))
  (at level 61, right associativity) : async_scope.
Notation "s |> f" := (f s) (at level 50, left associativity, only parsing).

(** *** The hook's functions *)

Section Hook.

Variable env : Environment.

(** The [try] block of [initializeWallet]. *)
Definition initializeWalletBody : Async unit :=
  (connectionStatus <- await CheckFreighterConnection (checkFreighterConnection env) ;;
   stillMounted <- mounted env ;;
   if negb stillMounted then ret tt
   else if negb (ConnectionStatus.isInstalled connectionStatus) then
     setWalletState (fun prev =>
       prev |> set_isInstalled false
            |> set_isLoading false
            |> set_error
                 (Some (Js.orElse (ConnectionStatus.error connectionStatus)
                          "Freighter not installed")))
   else
     permissionStatus <- await CheckFreighterPermission (checkFreighterPermission env) ;;
     stillMounted <- mounted env ;;
     if negb stillMounted then ret tt
     else
       let isAllowed := PermissionStatus.isAllowed permissionStatus in
       let isConnected := ConnectionStatus.isConnected connectionStatus && isAllowed in
       if isConnected then
         ' (addressResult, networkResult) <-
           awaitAll2 GetFreighterAddress (getFreighterAddress env)
                     GetFreighterNetwork (getFreighterNetwork env) ;;
         stillMounted <- mounted env ;;
         if negb stillMounted then ret tt
         else
           let publicKey := Js.orNull (AddressResult.address addressResult) in
           usdcBalance <-
             match publicKey with
             | Some key => await (GetUSDCBalance key) (getUSDCBalance env key)
             | None => ret None
             end ;;
           setWalletState (fun _ => {|
             isConnected := true;
             publicKey := Js.orNull (AddressResult.address addressResult);
             network := Js.orNull (NetworkResult.network networkResult);
             networkPassphrase := Js.orNull (NetworkResult.networkPassphrase networkResult);
             isInstalled := true;
             isAllowed := true;
             isLoading := false;
             error := None;
             usdcBalance := usdcBalance
           |})
       else
         setWalletState (fun prev =>
           prev |> set_isConnected false
                |> set_isInstalled true
                |> set_isAllowed isAllowed
                |> set_isLoading false
                |> set_error None
                |> set_usdcBalance None))%async.

(** The [catch] block of [initializeWallet]. *)
Definition initializeWalletCatch (e : Js.thrown) : Async unit :=
  (stillMounted <- mounted env ;;
   if stillMounted then
     setWalletState (fun prev =>
       prev |> set_isInstalled false
            |> set_isLoading false
            |> set_error (Some (Js.messageOr e "Unknown error"))
            |> set_usdcBalance None)
   else ret tt)%async.

Definition initializeWallet : Async unit :=
  tryCatch initializeWalletBody initializeWalletCatch.

(** The state the closures of the current render captured. *)
Variable walletState : WalletState.

Definition getPublicKey : Async string :=
  tryCatch
    (match (if isConnected walletState then Js.orNull (publicKey walletState) else None) with
     | Some key => ret key
     | None =>
         connectResult <- await ConnectFreighter (connectFreighter env) ;;
         match Js.orNull (ConnectResult.error connectResult) with
         | Some message => throw (Js.ErrorObject message)
         | None =>
             match Js.orNull (ConnectResult.address connectResult) with
             | None => throw (Js.ErrorObject "No address returned from Freighter")
             | Some address =>
                 networkResult <- await GetFreighterNetwork (getFreighterNetwork env) ;;
                 usdcBalance <- await (GetUSDCBalance address) (getUSDCBalance env address) ;;
                 setWalletState (fun prev =>
                   prev |> set_isConnected true
                        |> set_publicKey (Js.orNull (ConnectResult.address connectResult))
                        |> set_network (Js.orNull (NetworkResult.network networkResult))
                        |> set_networkPassphrase
                             (Js.orNull (NetworkResult.networkPassphrase networkResult))
                        |> set_isInstalled true
                        |> set_isAllowed true
                        |> set_error None
                        |> set_usdcBalance usdcBalance) ;;
                 ret address
             end
         end
     end)%async
    (fun e =>
       (setWalletState (fun prev =>
          prev |> set_error (Some (Js.messageOr e "Failed to get public key"))
               |> set_usdcBalance None) ;;
        throw e)%async).

Definition connect : Async unit :=
  tryFinally
    (tryCatch
       (setWalletState (fun prev => prev |> set_isLoading true |> set_error None) ;;
        _ <- getPublicKey ;;
        ret tt)%async
       (fun e =>
          (setWalletState (fun prev =>
             prev |> set_isLoading false
                  |> set_error (Some (Js.messageOr e "Failed to connect"))) ;;
           throw e)%async))
    (setWalletState (fun prev => prev |> set_isLoading false)).

Definition refreshConnection : Async unit :=
  (setWalletState (fun prev => prev |> set_isLoading true) ;;
   tryCatch
     (' (connectionStatus, addressResult, networkResult) <-
        awaitAll3 CheckFreighterConnection (checkFreighterConnection env)
                  GetFreighterAddress (getFreighterAddress env)
                  GetFreighterNetwork (getFreighterNetwork env) ;;
      let publicKey := Js.orNull (AddressResult.address addressResult) in
      usdcBalance <-
        match publicKey with
        | Some key => await (GetUSDCBalance key) (getUSDCBalance env key)
        | None => ret None
        end ;;
      setWalletState (fun _ => {|
        isConnected :=
          ConnectionStatus.isConnected connectionStatus
          && Js.truthy (AddressResult.address addressResult);
        publicKey := Js.orNull (AddressResult.address addressResult);
        network := Js.orNull (NetworkResult.network networkResult);
        networkPassphrase := Js.orNull (NetworkResult.networkPassphrase networkResult);
        isInstalled := ConnectionStatus.isInstalled connectionStatus;
        isAllowed := Js.truthy (AddressResult.address addressResult);
        isLoading := false;
        error := None;
        usdcBalance := usdcBalance
      |}))
     (fun e =>
        setWalletState (fun prev =>
          prev |> set_isLoading false
               |> set_error (Some (Js.messageOr e "Failed to refresh connection"))
               |> set_usdcBalance None)))%async.

End Hook.

Definition disconnect : Async unit :=
  setWalletState (fun prev =>
    prev |> set_isConnected false
         |> set_publicKey None
         |> set_network None
         |> set_networkPassphrase None
         |> set_usdcBalance None).

(** *** Reachable states

    A state is reachable when it is the initial state or results from a
    reachable state by one commit of some run of the hook's functions,
    whatever the extension answers.  Commits of different runs may
    interleave, and the render a closure was created in may be stale. *)
Section Reachable.

(** What is assumed of the environment of a run of [initializeWallet]. *)
Variable initEnv : Environment -> Prop.

Inductive reachableWhen : WalletState -> Prop :=
| reachable_initial : reachableWhen initialState
| reachable_initializeWallet env update s :
    initEnv env ->
    In (Commit update) (events (run (initializeWallet env))) ->
    reachableWhen s -> reachableWhen (update s)
| reachable_getPublicKey env snapshot update s :
    reachableWhen snapshot ->
    In (Commit update) (events (run (getPublicKey env snapshot))) ->
    reachableWhen s -> reachableWhen (update s)
| reachable_connect env snapshot update s :
    reachableWhen snapshot ->
    In (Commit update) (events (run (connect env snapshot))) ->
    reachableWhen s -> reachableWhen (update s)
| reachable_disconnect update s :
    In (Commit update) (events (run disconnect)) ->
    reachableWhen s -> reachableWhen (update s)
| reachable_refreshConnection env update s :
    In (Commit update) (events (run (refreshConnection env))) ->
    reachableWhen s -> reachableWhen (update s).

End Reachable.

Definition reachable : WalletState -> Prop := reachableWhen (fun _ => True).

(** Whenever initialization gets to read the address, the extension
    returned a non-empty one. *)
Definition initAddressReturned (env : Environment) : Prop :=
  match getFreighterAddress env with
  | Js.Ok a => Js.truthy (AddressResult.address a) = true
  | Js.Throw _ => True
  end.

End Wallet.

(* ================================================================== *)
(** ** routes/property.route.ts *)
(* ================================================================== *)

Module Routes.

Inductive Method : Type := GET | POST | PUT | DELETE | PATCH.

(** The middleware and controllers the router is wired to. *)
Inductive Handler : Type :=
| authenticateToken
| validatePropertyId
| validateOwnerId
| uploadArray (field : string) (maxCount : nat)
| processImageUploads
| createPropertyController
| deletePropertyController
| getAllowedAmenitiesController
| getFeaturedPropertiesController
| getPropertiesByOwnerController
| getPropertyByIdController
| searchPropertiesController
| updatePropertyAvailabilityController
| updatePropertyController
| updatePropertyStatusController
| verifyPropertyController.

Record Route : Type := {
  method : Method;
  path : string;
  handlers : list Handler
}.

(** The calls [router.get], [router.post], ... in registration order. *)
Definition router : list Route := [
  {| method := GET; path := "/amenities"; handlers := [getAllowedAmenitiesController] |};
  {| method := GET; path := "/featured"; handlers := [getFeaturedPropertiesController] |};
  {| method := GET; path := "/"; handlers := [searchPropertiesController] |};
  {| method := GET; path := "/:id";
     handlers := [validatePropertyId; getPropertyByIdController] |};
  {| method := POST; path := "/";
     handlers := [authenticateToken; uploadArray "images" 10; processImageUploads;
                  createPropertyController] |};
  {| method := PUT; path := "/:id";
     handlers := [authenticateToken; validatePropertyId; uploadArray "images" 10;
                  processImageUploads; updatePropertyController] |};
  {| method := DELETE; path := "/:id";
     handlers := [authenticateToken; validatePropertyId; deletePropertyController] |};
  {| method := GET; path := "/owner/:ownerId";
     handlers := [authenticateToken; validateOwnerId; getPropertiesByOwnerController] |};
  {| method := PATCH; path := "/:id/availability";
     handlers := [authenticateToken; validatePropertyId;
                  updatePropertyAvailabilityController] |};
  {| method := PATCH; path := "/:id/status";
     handlers := [authenticateToken; validatePropertyId; updatePropertyStatusController] |};
  {| method := GET; path := "/:id/verify";
     handlers := [validatePropertyId; verifyPropertyController] |}
].

(** The paths that can be requested without a token. *)
Definition publicPaths : list string :=
  ["/amenities"; "/featured"; "/"; "/:id"; "/:id/verify"].

End Routes.

(* ================================================================== *)
(** ** Vocabulary of the specification *)
(* ================================================================== *)

Module Spec.

(** "Explicit option, then environment configuration, then the default":
    the first candidate that is set to a non-empty string wins. *)
Fixpoint fallThrough (candidates : list (option string)) (default : string) : string :=
  match candidates with
  | [] => default
  | Some (String c s) :: _ => String c s
  | _ :: rest => fallThrough rest default
  end.

(** The explorer URL as the specification words it, with all three
    knobs going through the environment; [typeVar] is the environment
    variable that would carry the resource type. *)
Definition explorerUrl (typeVar : string) (env : Blockchain.ProcessEnv)
    (resourceId : string) (opts : option Blockchain.ExplorerOpts) : string :=
  Js.stripTrailingSlashes
    (fallThrough [Js.optChain opts Blockchain.baseUrl;
                  env "NEXT_PUBLIC_STELLAR_EXPLORER_URL"]
       "https://stellar.expert/explorer")
  ++ "/" ++
  fallThrough [option_map Blockchain.networkName (Js.optChain opts Blockchain.network);
               env "NEXT_PUBLIC_STELLAR_NETWORK"] "testnet"
  ++ "/" ++
  fallThrough [option_map Blockchain.resourceName (Js.optChain opts Blockchain.resourceType);
               env typeVar] "tx"
  ++ "/" ++ resourceId.

(** An error is present on a status: the field holds a non-empty
    message. *)
Definition errorPresent (st : Blockchain.PropertyBlockchainStatus) : Prop :=
  exists m, Blockchain.error st = Some m /\ m <> "".

Definition failedBadge : Blockchain.Badge :=
  {| Blockchain.text := "Verification Failed";
     Blockchain.color := Blockchain.red;
     Blockchain.icon := "❌" |}.

Definition verifiedBadge : Blockchain.Badge :=
  {| Blockchain.text := "Verified on Blockchain";
     Blockchain.color := Blockchain.green;
     Blockchain.icon := "✅" |}.

Definition notVerifiedBadge : Blockchain.Badge :=
  {| Blockchain.text := "Not Verified";
     Blockchain.color := Blockchain.yellow;
     Blockchain.icon := "⚠️" |}.

(** The backend answered with [success] and a [data] payload. *)
Definition succeededWith (response : Js.outcome (option Blockchain.Envelope.t))
    (d : Blockchain.BlockchainVerificationResult) : Prop :=
  exists e, response = Js.Ok (Some e)
            /\ Blockchain.Envelope.success e = true
            /\ Blockchain.Envelope.data e = Some d.

Definition invalidResult : Blockchain.BlockchainVerificationResult :=
  {| Blockchain.isValid := false; Blockchain.blockchainData := None |}.

(** The connection invariant of the data model. *)
Definition connectedImpliesKey (s : Wallet.WalletState) : Prop :=
  Wallet.isConnected s = true ->
  Wallet.publicKey s <> None /\ Wallet.isAllowed s = true.

(** Absent values are stored as null, never as the empty string, and a
    balance is only kept together with the key it belongs to. *)
Definition normalised (s : Wallet.WalletState) : Prop :=
  Wallet.publicKey s <> Some ""
  /\ Wallet.network s <> Some ""
  /\ Wallet.networkPassphrase s <> Some ""
  /\ (Wallet.usdcBalance s <> None -> Wallet.publicKey s <> None).

Definition connectedIffKey (s : Wallet.WalletState) : Prop :=
  Wallet.isConnected s = true <->
  (Wallet.publicKey s <> None /\ Wallet.isAllowed s = true).

End Spec.

(* ================================================================== *)
(** ** Concrete inputs *)
(* ================================================================== *)

Module Examples.

Import Blockchain.

(** No environment variable is set. *)
Definition emptyEnv : ProcessEnv := fun _ => None.

(** Every environment variable is set to "account". *)
Definition accountEverywhere : ProcessEnv := fun _ => Some "account".

(** The backend answers every request with a well-formed envelope whose
    payload says the stored hash does not match. *)
Definition mismatchResponse : string -> Js.outcome (option Envelope.t) :=
  fun _ =>
    Js.Ok (Some {| Envelope.success := true;
                   Envelope.data :=
                     Some {| isValid := false;
                             blockchainData :=
                               Some {| id := "p1"; data_hash := "9f2c"; owner := "GOWNER";
                                       status := Available |} |};
                   Envelope.error := None;
                   Envelope.message := None |}).

Definition timestamp : string := "2024-05-01T10:00:00.000Z".

(** The backend is unreachable: every request rejects. *)
Definition rejectingRequest : string -> Js.outcome (option Envelope.t) :=
  fun _ => Js.Throw (Js.ErrorObject "503 Service Unavailable").

Definition publicContract (base : string) : ExplorerOpts :=
  {| resourceType := Some contract; network := Some public; baseUrl := Some base |}.

Import Wallet.

Definition testNetwork : NetworkResult.t :=
  {| NetworkResult.network := Some "TESTNET";
     NetworkResult.networkPassphrase := Some "Test SDF Network ; September 2015" |}.

(** The extension is there, connected and allowed, and hands out the
    address GABC; the component stays mounted. *)
Definition walletReady : Environment := {|
  checkFreighterConnection :=
    Js.Ok {| ConnectionStatus.isInstalled := true;
             ConnectionStatus.isConnected := true;
             ConnectionStatus.error := None |};
  checkFreighterPermission := Js.Ok {| PermissionStatus.isAllowed := true |};
  connectFreighter :=
    Js.Ok {| ConnectResult.address := Some "GABC"; ConnectResult.error := None |};
  getFreighterAddress := Js.Ok {| AddressResult.address := Some "GABC" |};
  getFreighterNetwork := Js.Ok testNetwork;
  getUSDCBalance := fun _ => Js.Ok (Some "12.50");
  unmountAt := None
|}.

(** As [walletReady], but the address request returns no address. *)
Definition walletNoAddress : Environment := {|
  checkFreighterConnection := checkFreighterConnection walletReady;
  checkFreighterPermission := checkFreighterPermission walletReady;
  connectFreighter := connectFreighter walletReady;
  getFreighterAddress := Js.Ok {| AddressResult.address := None |};
  getFreighterNetwork := getFreighterNetwork walletReady;
  getUSDCBalance := getUSDCBalance walletReady;
  unmountAt := None
|}.

(** As [walletReady], but the connection check says "not connected". *)
Definition walletNotConnected : Environment := {|
  checkFreighterConnection :=
    Js.Ok {| ConnectionStatus.isInstalled := true;
             ConnectionStatus.isConnected := false;
             ConnectionStatus.error := None |};
  checkFreighterPermission := checkFreighterPermission walletReady;
  connectFreighter := connectFreighter walletReady;
  getFreighterAddress := getFreighterAddress walletReady;
  getFreighterNetwork := getFreighterNetwork walletReady;
  getUSDCBalance := getUSDCBalance walletReady;
  unmountAt := None
|}.

(** The extension is reported absent; [unmount] tells when the
    component unmounts. *)
Definition walletAbsent (unmount : option nat) : Environment := {|
  checkFreighterConnection :=
    Js.Ok {| ConnectionStatus.isInstalled := false;
             ConnectionStatus.isConnected := false;
             ConnectionStatus.error := Some "Freighter is not installed" |};
  checkFreighterPermission := checkFreighterPermission walletReady;
  connectFreighter := connectFreighter walletReady;
  getFreighterAddress := getFreighterAddress walletReady;
  getFreighterNetwork := getFreighterNetwork walletReady;
  getUSDCBalance := getUSDCBalance walletReady;
  unmountAt := unmount
|}.

(** The permission check rejects. *)
Definition walletPermissionFails : Environment := {|
  checkFreighterConnection := checkFreighterConnection walletReady;
  checkFreighterPermission := Js.Throw (Js.ErrorObject "extension unreachable");
  connectFreighter := connectFreighter walletReady;
  getFreighterAddress := getFreighterAddress walletReady;
  getFreighterNetwork := getFreighterNetwork walletReady;
  getUSDCBalance := getUSDCBalance walletReady;
  unmountAt := None
|}.

(** As [walletReady], but the component unmounts while the balance
    lookup, the fourth await of initialization, is pending. *)
Definition walletUnmountsDuringBalance : Environment := {|
  checkFreighterConnection := checkFreighterConnection walletReady;
  checkFreighterPermission := checkFreighterPermission walletReady;
  connectFreighter := connectFreighter walletReady;
  getFreighterAddress := getFreighterAddress walletReady;
  getFreighterNetwork := getFreighterNetwork walletReady;
  getUSDCBalance := getUSDCBalance walletReady;
  unmountAt := Some 4
|}.

(** The user has not granted this site access. *)
Definition walletNotAllowed : Environment := {|
  checkFreighterConnection := checkFreighterConnection walletReady;
  checkFreighterPermission := Js.Ok {| PermissionStatus.isAllowed := false |};
  connectFreighter := connectFreighter walletReady;
  getFreighterAddress := getFreighterAddress walletReady;
  getFreighterNetwork := getFreighterNetwork walletReady;
  getUSDCBalance := getUSDCBalance walletReady;
  unmountAt := None
|}.

(** The connect request comes back with an error field, and with an
    address all the same. *)
Definition walletConnectRefused : Environment := {|
  checkFreighterConnection := checkFreighterConnection walletReady;
  checkFreighterPermission := checkFreighterPermission walletReady;
  connectFreighter :=
    Js.Ok {| ConnectResult.address := Some "GABC";
             ConnectResult.error := Some "User declined access" |};
  getFreighterAddress := getFreighterAddress walletReady;
  getFreighterNetwork := getFreighterNetwork walletReady;
  getUSDCBalance := getUSDCBalance walletReady;
  unmountAt := None
|}.

(** The connect request comes back with neither an error nor an address. *)
Definition walletConnectEmpty : Environment := {|
  checkFreighterConnection := checkFreighterConnection walletReady;
  checkFreighterPermission := checkFreighterPermission walletReady;
  connectFreighter :=
    Js.Ok {| ConnectResult.address := Some ""; ConnectResult.error := None |};
  getFreighterAddress := getFreighterAddress walletReady;
  getFreighterNetwork := getFreighterNetwork walletReady;
  getUSDCBalance := getUSDCBalance walletReady;
  unmountAt := None
|}.

(** The network request rejects with something that is not an Error. *)
Definition walletNetworkFails : Environment := {|
  checkFreighterConnection := checkFreighterConnection walletReady;
  checkFreighterPermission := checkFreighterPermission walletReady;
  connectFreighter := connectFreighter walletReady;
  getFreighterAddress := getFreighterAddress walletReady;
  getFreighterNetwork := Js.Throw Js.OtherValue;
  getUSDCBalance := getUSDCBalance walletReady;
  unmountAt := None
|}.

(** The state after a first-time [getPublicKey] succeeded on the
    initial state. *)
Definition connectedState : WalletState :=
  finalState (run (getPublicKey walletReady initialState)) initialState.

End Examples.

(* ================================================================== *)
(** ** Strings *)
(* ================================================================== *)

Section StringFacts.

Lemma length_append (a b : string) :
  String.length (a ++ b) = String.length a + String.length b.
Proof. induction a as [|c a IH]; cbn; [reflexivity | now rewrite IH]. Qed.

Lemma substring_all (s : string) : substring 0 (String.length s) s = s.
Proof. induction s as [|c s IH]; cbn; [reflexivity | now rewrite IH]. Qed.

Lemma substring_length (s : string) :
  forall n m, n + m <= String.length s -> String.length (substring n m s) = m.
Proof.
  induction s as [|c s IH]; intros n m H; cbn in H.
  - assert (n = 0) by lia. assert (m = 0) by lia. subst. reflexivity.
  - destruct n as [|n]; cbn.
    + destruct m as [|m]; cbn; [reflexivity|]. rewrite IH; [reflexivity | lia].
    + apply IH. lia.
Qed.

Lemma stripTrailingSlashes_decompose (s : string) :
  exists k, s = Js.stripTrailingSlashes s ++ Js.slashes k.
Proof.
  induction s as [|c s [k IH]]; cbn.
  - exists 0. reflexivity.
  - destruct (Js.stripTrailingSlashes s) as [|d kept] eqn:E.
    + destruct (Ascii.eqb_spec c "/") as [->|_].
      * exists (S k). cbn in *. now rewrite IH at 1.
      * exists k. cbn in *. now rewrite IH at 1.
    + exists k. cbn. now rewrite IH at 1.
Qed.

Lemma stripTrailingSlashes_last (s : string) :
  Js.lastChar (Js.stripTrailingSlashes s) <> Some "/"%char.
Proof.
  induction s as [|c s IH]; cbn; [discriminate|].
  destruct (Js.stripTrailingSlashes s) as [|d kept] eqn:E.
  - destruct (Ascii.eqb_spec c "/") as [->|N]; cbn; congruence.
  - exact IH.
Qed.

End StringFacts.

(* ================================================================== *)
(** ** services/blockchain.ts: properties *)
(* ================================================================== *)

Section BlockchainFacts.

Import Blockchain.

(** *** truncateHash *)

Lemma truncateHash_short (hash : string) (n : Z) :
  (Z.of_nat (String.length hash) <= 2 * n)%Z -> truncateHash hash n = hash.
Proof.
  intros H. unfold truncateHash.
  destruct (Z.leb_spec (Z.of_nat (String.length hash)) (n * 2)); [reflexivity | lia].
Qed.

Lemma truncateHash_long (hash : string) (n : Z) :
  (1 <= n)%Z -> (2 * n < Z.of_nat (String.length hash))%Z ->
  truncateHash hash n =
    substring 0 (Z.to_nat n) hash ++ "..."
    ++ substring (String.length hash - Z.to_nat n) (Z.to_nat n) hash
  /\ Z.of_nat (String.length (truncateHash hash n)) = (2 * n + 3)%Z.
Proof.
  intros Hn Hlen.
  assert (E : truncateHash hash n =
    substring 0 (Z.to_nat n) hash ++ "..."
    ++ substring (String.length hash - Z.to_nat n) (Z.to_nat n) hash).
  { unfold truncateHash.
    destruct (Z.leb_spec (Z.of_nat (String.length hash)) (n * 2)); [lia|].
    unfold Js.slice, Js.relativeIndex.
    destruct (Z.ltb_spec 0 0); [lia|].
    destruct (Z.ltb_spec n 0); [lia|].
    destruct (Z.ltb_spec (- n) 0); [|lia].
    rewrite (Z.min_l 0) by lia. rewrite (Z.min_l n) by lia. rewrite Z.max_l by lia.
    replace (Z.to_nat 0) with 0 by reflexivity.
    replace (Z.to_nat (n - 0)) with (Z.to_nat n) by (f_equal; lia).
    replace (Z.to_nat (Z.of_nat (String.length hash) + - n))
      with (String.length hash - Z.to_nat n) by lia.
    replace (Z.to_nat (Z.of_nat (String.length hash)
                       - (Z.of_nat (String.length hash) + - n)))
      with (Z.to_nat n) by lia.
    reflexivity. }
  split; [exact E|].
  rewrite E, !length_append, !substring_length by lia.
  change (String.length "...") with 3. lia.
Qed.

Lemma truncateHash_zero (hash : string) :
  hash <> "" -> truncateHash hash 0 = "..." ++ hash.
Proof.
  intros H. unfold truncateHash.
  destruct hash as [|c rest]; [congruence|].
  destruct (Z.leb_spec (Z.of_nat (String.length (String c rest))) (0 * 2));
    [cbn [String.length] in *; lia|].
  unfold Js.slice, Js.relativeIndex. cbn [Z.opp Z.ltb Z.compare].
  rewrite Z.min_l by lia.
  replace (Z.to_nat (0 - 0)) with 0 by reflexivity.
  replace (Z.to_nat (Z.of_nat (String.length (String c rest)) - 0))
    with (String.length (String c rest)) by lia.
  replace (Z.to_nat 0) with 0 by reflexivity.
  rewrite substring_all. reflexivity.
Qed.

(** C3.  For every hash and every length n >= 1, [truncateHash] returns
    the hash unchanged when its length is at most 2n and otherwise the
    first n characters, the ellipsis and the last n characters, 2n+3
    characters in all ([truncateHash_short], [truncateHash_long]).  At
    n = 0 and a non-empty hash it should produce just the ellipsis, but
    [hash.slice(-0)] is [hash.slice(0)], the whole string: for "abc" the
    code returns "...abc". *)
Theorem truncateHash_abc_zero :
  truncateHash "abc" 0 = "...abc" /\ truncateHash "abc" 0 <> "...".
Proof. split; [reflexivity | discriminate]. Qed.

(** *** formatBlockchainStatus *)

Lemma truthy_errorPresent (st : PropertyBlockchainStatus) :
  Js.truthy (error st) = true <-> Spec.errorPresent st.
Proof.
  unfold Spec.errorPresent, Js.truthy. destruct (error st) as [m|].
  - destruct (String.eqb_spec m "") as [->|N]; cbn; split.
    + discriminate.
    + intros [m' [[= <-] N]]. congruence.
    + intros _. exists m. auto.
    + reflexivity.
  - split; [discriminate | intros [m [[=] _]]].
Qed.

(** C5, counterexample.  A status whose error is set to the empty string
    and whose [isVerified] is true is formatted green, not red. *)
Lemma formatBlockchainStatus_empty_error_green :
  let st := {| isVerified := true; blockchainHash := None;
               lastVerified := None; error := Some "" |} in
  error st <> None /\ color (formatBlockchainStatus st) = green.
Proof. cbn. split; [discriminate | reflexivity]. Qed.

(** C5, amended.  [formatBlockchainStatus] is total and falls in exactly
    one of three cases: a non-empty error gives red / "Verification
    Failed" whatever [isVerified] is; otherwise (error absent or empty)
    [isVerified = true] gives green / "Verified on Blockchain"; otherwise
    yellow / "Not Verified". *)
Theorem formatBlockchainStatus_three_cases (st : PropertyBlockchainStatus) :
  (Spec.errorPresent st /\ formatBlockchainStatus st = Spec.failedBadge)
  \/ (~ Spec.errorPresent st /\ isVerified st = true
      /\ formatBlockchainStatus st = Spec.verifiedBadge)
  \/ (~ Spec.errorPresent st /\ isVerified st = false
      /\ formatBlockchainStatus st = Spec.notVerifiedBadge).
Proof.
  pose proof (truthy_errorPresent st) as T.
  unfold formatBlockchainStatus.
  destruct (Js.truthy (error st)) eqn:E.
  - left. split; [apply T; reflexivity | reflexivity].
  - assert (N : ~ Spec.errorPresent st) by (intros P; apply T in P; discriminate).
    destruct (isVerified st) eqn:V; [right; left | right; right]; auto.
Qed.

(** C10.  A status whose error is the empty string is formatted as if it
    had no error: green when [isVerified] is true, yellow otherwise, and
    never red. *)
Theorem formatBlockchainStatus_empty_error (st : PropertyBlockchainStatus) :
  error st = Some "" ->
  formatBlockchainStatus st
    = (if isVerified st then Spec.verifiedBadge else Spec.notVerifiedBadge)
  /\ color (formatBlockchainStatus st) <> red.
Proof.
  intros E. unfold formatBlockchainStatus. rewrite E. cbn.
  destruct (isVerified st); split; (reflexivity || discriminate).
Qed.

Lemma formatBlockchainStatus_empty_error_witness :
  let st := {| isVerified := false; blockchainHash := Some "ab12";
               lastVerified := None; error := Some "" |} in
  formatBlockchainStatus st = Spec.notVerifiedBadge
  /\ color (formatBlockchainStatus st) <> red.
Proof.
  exact (formatBlockchainStatus_empty_error
           {| isVerified := false; blockchainHash := Some "ab12";
              lastVerified := None; error := Some "" |} eq_refl).
Defined.

(** *** getBlockchainExplorerUrl *)

Lemma orElse_fallThrough (v : option string) (rest : list (option string)) (d : string) :
  Js.orElse v (Spec.fallThrough rest d) = Spec.fallThrough (v :: rest) d.
Proof. destruct v as [[|c s]|]; reflexivity. Qed.

(** C9, counterexample.  With no options and every environment variable
    set to "account", the base and the network come from the environment
    but the resource type is still "tx": whichever variable were to carry
    the resource type, the code does not read it. *)
Lemma getBlockchainExplorerUrl_type_ignores_env :
  getBlockchainExplorerUrl Examples.accountEverywhere "abc" None = "account/account/tx/abc"
  /\ ~ (exists typeVar,
          getBlockchainExplorerUrl Examples.accountEverywhere "abc" None
          = Spec.explorerUrl typeVar Examples.accountEverywhere "abc" None).
Proof.
  split; [reflexivity|]. intros [typeVar H]. cbv in H. discriminate H.
Qed.

(** C9, amended.  The URL is base/network/type/resourceId, where base
    falls back through the explicit option, then
    NEXT_PUBLIC_STELLAR_EXPLORER_URL, then https://stellar.expert/explorer
    and has its trailing slashes stripped; network falls back through the
    explicit option, then NEXT_PUBLIC_STELLAR_NETWORK, then testnet; and
    the resource type falls back from the explicit option directly to tx,
    with no environment step.  With no environment and no options the
    result for abc123 is https://stellar.expert/explorer/testnet/tx/abc123,
    and an explicit base https://x.com/ loses its trailing slash. *)
Theorem getBlockchainExplorerUrl_fallbacks :
  (forall (env : ProcessEnv) (resourceId : string) (opts : option ExplorerOpts),
      let base :=
        Spec.fallThrough [Js.optChain opts baseUrl; env "NEXT_PUBLIC_STELLAR_EXPLORER_URL"]
          "https://stellar.expert/explorer" in
      let net :=
        Spec.fallThrough [option_map networkName (Js.optChain opts network);
                          env "NEXT_PUBLIC_STELLAR_NETWORK"] "testnet" in
      let type :=
        Spec.fallThrough [option_map resourceName (Js.optChain opts resourceType)] "tx" in
      exists (stripped : string) (k : nat),
        base = stripped ++ Js.slashes k
        /\ Js.lastChar stripped <> Some "/"%char
        /\ getBlockchainExplorerUrl env resourceId opts
           = stripped ++ "/" ++ net ++ "/" ++ type ++ "/" ++ resourceId)
  /\ getBlockchainExplorerUrl Examples.emptyEnv "abc123" None
     = "https://stellar.expert/explorer/testnet/tx/abc123"
  /\ getBlockchainExplorerUrl Examples.emptyEnv "abc"
       (Some {| resourceType := Some contract; network := Some public;
                baseUrl := Some "https://x.com/" |})
     = "https://x.com/public/contract/abc".
Proof.
  split; [|split; reflexivity].
  intros env resourceId opts base net type.
  destruct (stripTrailingSlashes_decompose base) as [k Hk].
  exists (Js.stripTrailingSlashes base), k.
  split; [exact Hk|]. split; [apply stripTrailingSlashes_last|].
  unfold getBlockchainExplorerUrl, base, net, type.
  rewrite <- !orElse_fallThrough. reflexivity.
Qed.

(** *** verifyPropertyWithBlockchain and getPropertyBlockchainStatus *)

Section ClientFacts.

Variable request : string -> Js.outcome (option Envelope.t).
Variable now : string.

(** C4.  Whatever the backend does (reject, answer [null], answer
    without success or without data), [verifyPropertyWithBlockchain]
    completes normally: with the payload unchanged when the answer has
    [success] and [data], and with [{isValid: false, blockchainData:
    undefined}] in every other case. *)
Theorem verifyPropertyWithBlockchain_never_throws (propertyId : string) :
  let response := request ("/properties/" ++ propertyId ++ "/verify") in
  (exists d, Spec.succeededWith response d
             /\ verifyPropertyWithBlockchain request propertyId = Js.Ok d)
  \/ ((~ exists d, Spec.succeededWith response d)
      /\ verifyPropertyWithBlockchain request propertyId = Js.Ok Spec.invalidResult).
Proof.
  intros response. unfold verifyPropertyWithBlockchain. fold response.
  unfold Spec.succeededWith.
  destruct response as [[[ [|] [d|] err msg]|]|e]; cbn.
  - left. exists d. split; [|reflexivity]. eexists. repeat split.
  - right. split; [|reflexivity]. intros [d [e [[= <-] [_ D]]]]. discriminate D.
  - right. split; [|reflexivity]. intros [d' [e [[= <-] [S _]]]]. discriminate S.
  - right. split; [|reflexivity]. intros [d' [e [[= <-] [S _]]]]. discriminate S.
  - right. split; [|reflexivity]. intros [d [e [[=] _]]].
  - right. split; [|reflexivity]. intros [d [e' [[=] _]]].
Qed.

Lemma verifyPropertyWithBlockchain_total (propertyId : string) :
  exists v, verifyPropertyWithBlockchain request propertyId = Js.Ok v.
Proof.
  unfold verifyPropertyWithBlockchain.
  destruct (request ("/properties/" ++ propertyId ++ "/verify"))
    as [[[ [|] [d|] err msg]|]|e]; cbn; eauto.
Qed.

(** C2, amended.  [getPropertyBlockchainStatus] completes normally and
    stamps [lastVerified] with the current time whenever the
    verification call returns, for a valid and for an invalid result
    alike; [isVerified] is the result's [isValid], and the error is
    "Data integrity check failed" exactly when the result is invalid. *)
Theorem getPropertyBlockchainStatus_stamps_always (propertyId : string) :
  exists v st,
    verifyPropertyWithBlockchain request propertyId = Js.Ok v
    /\ getPropertyBlockchainStatus request now propertyId = Js.Ok st
    /\ isVerified st = isValid v
    /\ lastVerified st = Some now
    /\ error st = (if isValid v then None else Some "Data integrity check failed").
Proof.
  destruct (verifyPropertyWithBlockchain_total propertyId) as [v Hv].
  unfold getPropertyBlockchainStatus. rewrite Hv. cbn.
  eexists v, _. repeat split.
Qed.

End ClientFacts.

(** C2, counterexample.  The backend reports a hash mismatch: the result
    is invalid, the fixed error string is returned, and [lastVerified]
    is stamped all the same. *)
Lemma getPropertyBlockchainStatus_stamps_invalid :
  verifyPropertyWithBlockchain Examples.mismatchResponse "p1"
  = Js.Ok {| isValid := false;
             blockchainData :=
               Some {| id := "p1"; data_hash := "9f2c"; owner := "GOWNER";
                       status := Available |} |}
  /\ getPropertyBlockchainStatus Examples.mismatchResponse Examples.timestamp "p1"
     = Js.Ok {| isVerified := false;
                blockchainHash := Some "9f2c";
                lastVerified := Some Examples.timestamp;
                error := Some "Data integrity check failed" |}.
Proof. split; reflexivity. Qed.

End BlockchainFacts.

(* ================================================================== *)
(** ** useWallet: properties *)
(* ================================================================== *)

Section WalletFacts.

Import Wallet.

Lemma replay_app (xs ys : list Event) (s : WalletState) :
  replay (xs ++ ys)%list s = replay ys (replay xs s).
Proof.
  revert s. induction xs as [|[f|u] xs IH]; intros s; cbn; auto.
Qed.

(** Case analysis on whatever the environment answered. *)
Ltac split_answers :=
  repeat (cbn in *;
    match goal with
    | H : context [match ?x with _ => _ end] |- _ =>
        lazymatch x with
        | context [match _ with _ => _ end] => fail
        | _ => destruct x eqn:?
        end
    | |- context [match ?x with _ => _ end] =>
        lazymatch x with
        | context [match _ with _ => _ end] => fail
        | _ => destruct x eqn:?
        end
    end);
  cbn in *.

Ltac unfold_async :=
  unfold tryCatch, tryFinally, bind, await, awaitAll2, awaitAll3, mounted,
    setWalletState, ret, throw in *.

(** Which commit of a computed event list a membership proof is about. *)
Ltac pick_commit :=
  repeat match goal with
    | H : _ \/ _ |- _ => destruct H
    | H : False |- _ => destruct H
    | H : Called _ = Commit _ |- _ => discriminate H
    | H : Commit _ = Commit _ |- _ => injection H as <-
    end.

Lemma tryCatch_throw {A : Type} (m : Async A) (h : Js.thrown -> Async A) (n : nat) e :
  result (m n) = Js.Throw e ->
  tryCatch m h n =
    {| result := result (h e (awaits (m n)));
       events := events (m n) ++ events (h e (awaits (m n)));
       awaits := awaits (h e (awaits (m n))) |}.
Proof.
  unfold tryCatch. destruct (m n) as [[a|e'] evs n']; cbn; intros [=]; subst.
  destruct (h e n'); reflexivity.
Qed.

(** *** disconnect *)

(** C8.  [disconnect] calls nothing: its only event is one commit, which
    sets [isConnected] to false and [publicKey], [network],
    [networkPassphrase] and [usdcBalance] to null, and leaves
    [isInstalled], [isAllowed], [isLoading] and [error] as they were. *)
Theorem disconnect_local_reset (prev : WalletState) :
  calls (events (run disconnect)) = []
  /\ result (run disconnect) = Js.Ok tt
  /\ finalState (run disconnect) prev =
     {| isConnected := false;
        publicKey := None;
        network := None;
        networkPassphrase := None;
        isInstalled := isInstalled prev;
        isAllowed := isAllowed prev;
        isLoading := isLoading prev;
        error := error prev;
        usdcBalance := None |}.
Proof. repeat split. Qed.

(** *** initializeWallet *)

(** C7, counterexample.  The extension is reported absent, but the
    component unmounts while the connection check is pending: nothing is
    committed, and the state is still the initial one, loading and
    without error. *)
Lemma initializeWallet_absent_unmounted :
  let env := Examples.walletAbsent (Some 1) in
  let s := finalState (run (initializeWallet env)) initialState in
  (exists cs, checkFreighterConnection env = Js.Ok cs
              /\ ConnectionStatus.isInstalled cs = false)
  /\ s = initialState /\ isLoading s = true /\ error s = None.
Proof.
  cbv zeta. split; [eexists; split; reflexivity|].
  repeat split.
Qed.

(** C7, amended.  When the connection check reports the extension
    absent, the run calls [checkFreighterConnection] and nothing else
    (no permission, address, network or balance call) and completes
    normally; if the component is still mounted when the check resolves,
    it commits [isInstalled = false], [isLoading = false] and the
    reported reason (or "Freighter not installed" when none is given) as
    [error], keeping the other fields; if the component has unmounted,
    it commits nothing. *)
Theorem initializeWallet_not_installed
    (env : Environment) (prev : WalletState) (cs : ConnectionStatus.t) :
  checkFreighterConnection env = Js.Ok cs ->
  ConnectionStatus.isInstalled cs = false ->
  calls (events (run (initializeWallet env))) = [CheckFreighterConnection]
  /\ result (run (initializeWallet env)) = Js.Ok tt
  /\ finalState (run (initializeWallet env)) prev =
     if mountedAfter env 1 then
       {| isConnected := isConnected prev;
          publicKey := publicKey prev;
          network := network prev;
          networkPassphrase := networkPassphrase prev;
          isInstalled := false;
          isAllowed := isAllowed prev;
          isLoading := false;
          error := Some (Js.orElse (ConnectionStatus.error cs) "Freighter not installed");
          usdcBalance := usdcBalance prev |}
     else prev.
Proof.
  intros Hcs Hinst.
  unfold finalState, run, initializeWallet, initializeWalletBody, tryCatch, bind, await, mounted.
  rewrite Hcs.
  destruct (mountedAfter env 1); cbn; [|auto].
  rewrite Hinst. cbn. auto.
Qed.

Lemma initializeWallet_not_installed_witness :
  let env := Examples.walletAbsent None in
  calls (events (run (initializeWallet env))) = [CheckFreighterConnection]
  /\ result (run (initializeWallet env)) = Js.Ok tt
  /\ finalState (run (initializeWallet env)) initialState =
     {| isConnected := false;
        publicKey := None;
        network := None;
        networkPassphrase := None;
        isInstalled := false;
        isAllowed := false;
        isLoading := false;
        error := Some "Freighter is not installed";
        usdcBalance := None |}.
Proof.
  exact (initializeWallet_not_installed (Examples.walletAbsent None) initialState
           {| ConnectionStatus.isInstalled := false;
              ConnectionStatus.isConnected := false;
              ConnectionStatus.error := Some "Freighter is not installed" |}
           eq_refl eq_refl).
Defined.

(** The [try] block commits nothing before it throws. *)
Lemma initializeWalletBody_throw_no_commit (env : Environment) (e : Js.thrown) :
  result (run (initializeWalletBody env)) = Js.Throw e ->
  forall prev, replay (events (run (initializeWalletBody env))) prev = prev.
Proof.
  intros H prev. destruct env as [cfc cfp cf gfa gfn bal um].
  unfold run, initializeWalletBody in *.
  split_answers; try discriminate; reflexivity.
Qed.

(** C6, counterexample.  The user connected while initialization was
    still waiting, so the prior state has [isInstalled = true]; then the
    permission check rejects, and the commit of the [catch] block turns
    [isInstalled] to false. *)
Lemma initializeWallet_throw_resets_isInstalled :
  let prior := Examples.connectedState in
  let after := finalState (run (initializeWallet Examples.walletPermissionFails)) prior in
  result (run (initializeWalletBody Examples.walletPermissionFails))
  = Js.Throw (Js.ErrorObject "extension unreachable")
  /\ isInstalled prior = true
  /\ isInstalled after = false.
Proof. cbv zeta. repeat split. Qed.

(** C6, amended.  When a step of initialization throws and the component
    is still mounted, the only commit keeps [isConnected], [publicKey],
    [network], [networkPassphrase] and [isAllowed] and sets
    [isInstalled = false], [isLoading = false], [usdcBalance = null] and
    [error] to the message of the thrown error ("Unknown error" when what
    was thrown is not an Error); when the component has unmounted,
    nothing is committed. *)
Theorem initializeWallet_throw_commit
    (env : Environment) (prev : WalletState) (e : Js.thrown) :
  result (run (initializeWalletBody env)) = Js.Throw e ->
  result (run (initializeWallet env)) = Js.Ok tt
  /\ finalState (run (initializeWallet env)) prev =
     if mountedAfter env (awaits (run (initializeWalletBody env))) then
       {| isConnected := isConnected prev;
          publicKey := publicKey prev;
          network := network prev;
          networkPassphrase := networkPassphrase prev;
          isInstalled := false;
          isAllowed := isAllowed prev;
          isLoading := false;
          error := Some (Js.messageOr e "Unknown error");
          usdcBalance := None |}
     else prev.
Proof.
  intros H.
  pose proof (initializeWalletBody_throw_no_commit env e H prev) as N.
  unfold finalState, initializeWallet, run in *.
  rewrite (tryCatch_throw _ _ _ _ H). cbn [result events awaits].
  rewrite replay_app, N.
  unfold initializeWalletCatch, bind, mounted, setWalletState, ret.
  destruct (mountedAfter env (awaits (initializeWalletBody env 0))); cbn; auto.
Qed.

Lemma initializeWallet_throw_commit_witness :
  let env := Examples.walletPermissionFails in
  result (run (initializeWallet env)) = Js.Ok tt
  /\ finalState (run (initializeWallet env)) Examples.connectedState =
     {| isConnected := true;
        publicKey := Some "GABC";
        network := Some "TESTNET";
        networkPassphrase := Some "Test SDF Network ; September 2015";
        isInstalled := false;
        isAllowed := true;
        isLoading := false;
        error := Some "extension unreachable";
        usdcBalance := None |}.
Proof.
  exact (initializeWallet_throw_commit Examples.walletPermissionFails
           Examples.connectedState (Js.ErrorObject "extension unreachable") eq_refl).
Defined.

(** *** The connection invariant *)

Lemma orNull_truthy (v : option string) : Js.truthy v = true -> Js.orNull v <> None.
Proof.
  unfold Js.orNull. intros H. rewrite H. destruct v; [discriminate | discriminate H].
Qed.

Ltac close_invariant :=
  unfold Spec.connectedImpliesKey in *; cbn in *;
  try tauto; try discriminate;
  try (intros; split; [discriminate | reflexivity]).

Lemma initializeWallet_commit_invariant (env : Environment) update s :
  initAddressReturned env ->
  In (Commit update) (events (run (initializeWallet env))) ->
  Spec.connectedImpliesKey s -> Spec.connectedImpliesKey (update s).
Proof.
  intros A H I. destruct env as [cfc cfp cf gfa gfn bal um].
  unfold initAddressReturned in A.
  unfold run, initializeWallet, initializeWalletBody, initializeWalletCatch in *. unfold_async.
  split_answers; pick_commit; close_invariant.
  all: exfalso; eapply orNull_truthy; eassumption.
Qed.

Lemma getPublicKey_commit_invariant (env : Environment) snapshot update s :
  In (Commit update) (events (run (getPublicKey env snapshot))) ->
  Spec.connectedImpliesKey s -> Spec.connectedImpliesKey (update s).
Proof.
  intros H I. destruct env as [cfc cfp cf gfa gfn bal um].
  unfold run, getPublicKey in *. unfold_async.
  split_answers; pick_commit; close_invariant.
Qed.

Lemma connect_commit_invariant (env : Environment) snapshot update s :
  In (Commit update) (events (run (connect env snapshot))) ->
  Spec.connectedImpliesKey s -> Spec.connectedImpliesKey (update s).
Proof.
  intros H I. destruct env as [cfc cfp cf gfa gfn bal um].
  unfold run, connect, getPublicKey in *. unfold_async.
  split_answers; pick_commit; close_invariant.
Qed.

Lemma disconnect_commit_invariant update s :
  In (Commit update) (events (run disconnect)) ->
  Spec.connectedImpliesKey s -> Spec.connectedImpliesKey (update s).
Proof.
  intros H I. cbn in H. pick_commit. close_invariant.
Qed.

Lemma refreshConnection_commit_invariant (env : Environment) update s :
  In (Commit update) (events (run (refreshConnection env))) ->
  Spec.connectedImpliesKey s -> Spec.connectedImpliesKey (update s).
Proof.
  intros H I. destruct env as [cfc cfp cf gfa gfn bal um].
  unfold run, refreshConnection in *. unfold_async.
  split_answers; pick_commit; close_invariant.
  all: rewrite andb_true_iff; intros [_ T]; split; [|exact T].
  all: try discriminate.
  all: exfalso; eapply orNull_truthy; eassumption.
Qed.

(** Replaying the commits of a run, in order, stays within the
    reachable states. *)
Lemma reachableWhen_replay (P : Environment -> Prop) (evs : list Event) :
  (forall update s, In (Commit update) evs ->
                    reachableWhen P s -> reachableWhen P (update s)) ->
  forall s, reachableWhen P s -> reachableWhen P (replay evs s).
Proof.
  induction evs as [|[f|u] evs IH]; intros step s R; cbn.
  - exact R.
  - apply IH; [|exact R]. intros u' s' Hin. apply step. right. exact Hin.
  - apply IH.
    + intros u' s' Hin. apply step. right. exact Hin.
    + apply step; [left; reflexivity | exact R].
Qed.

Lemma connectedState_reachable (P : Environment -> Prop) :
  reachableWhen P Examples.connectedState.
Proof.
  unfold Examples.connectedState, finalState.
  apply reachableWhen_replay; [|constructor].
  intros update s Hin R.
  exact (reachable_getPublicKey P Examples.walletReady initialState update s
           (reachable_initial P) Hin R).
Qed.

(** C1, counterexample.  From the initial state, [refreshConnection]
    with an extension that returns an address while the connection check
    says "not connected" commits a state with a public key and
    [isAllowed = true] but [isConnected = false]. *)
Lemma refreshConnection_key_without_connection :
  let s := finalState (run (refreshConnection Examples.walletNotConnected)) initialState in
  reachable s
  /\ isConnected s = false /\ publicKey s = Some "GABC" /\ isAllowed s = true
  /\ ~ Spec.connectedIffKey s.
Proof.
  cbv zeta. split.
  - unfold finalState, reachable. apply reachableWhen_replay; [|constructor].
    intros update s Hin R.
    exact (reachable_refreshConnection _ Examples.walletNotConnected update s Hin R).
  - repeat split. intros [_ back].
    assert (F : false = true) by (apply back; split; [discriminate | reflexivity]).
    discriminate F.
Qed.

(** Initialization on its connected branch commits [isConnected = true]
    without looking at the address: when the extension returns none, the
    committed state is connected without a public key. *)
Lemma initializeWallet_connected_without_key :
  let s := finalState (run (initializeWallet Examples.walletNoAddress)) initialState in
  reachable s /\ isConnected s = true /\ publicKey s = None.
Proof.
  cbv zeta. split.
  - unfold finalState, reachable. apply reachableWhen_replay; [|constructor].
    intros update s Hin R.
    exact (reachable_initializeWallet _ Examples.walletNoAddress update s I Hin R).
  - split; reflexivity.
Qed.

(** C1, amended.  In every state reachable through the commits of
    initialization, [getPublicKey], [connect], [disconnect] and
    [refreshConnection], where the runs of initialization that fetch the
    address receive a non-empty one, [isConnected == true] implies
    [publicKey != null] and [isAllowed == true].  The converse does not
    hold: [refreshConnection] can commit a public key and
    [isAllowed = true] with [isConnected = false]. *)
Theorem reachable_connected_has_key (s : WalletState) :
  reachableWhen initAddressReturned s ->
  isConnected s = true ->
  publicKey s <> None /\ isAllowed s = true.
Proof.
  intros R. change (Spec.connectedImpliesKey s).
  induction R as [ | env u s A Hin R IH | env snap u s Rsnap _ Hin R IH
                   | env snap u s Rsnap _ Hin R IH | u s Hin R IH | env u s Hin R IH ].
  - intros C. discriminate C.
  - eapply initializeWallet_commit_invariant; eauto.
  - eapply getPublicKey_commit_invariant; eauto.
  - eapply connect_commit_invariant; eauto.
  - eapply disconnect_commit_invariant; eauto.
  - eapply refreshConnection_commit_invariant; eauto.
Qed.

Lemma reachable_connected_has_key_witness :
  isConnected Examples.connectedState = true
  /\ publicKey Examples.connectedState <> None
  /\ isAllowed Examples.connectedState = true.
Proof.
  split; [reflexivity|].
  exact (reachable_connected_has_key Examples.connectedState
           (connectedState_reachable initAddressReturned) eq_refl).
Defined.

(** *** Further properties of initializeWallet *)

Lemma orNull_Some (v : option string) (k : string) :
  Js.orNull v = Some k -> v = Some k /\ k <> "".
Proof.
  unfold Js.orNull, Js.truthy. destruct v as [s|]; [|discriminate].
  destruct (String.eqb_spec s "") as [->|N]; cbn; [discriminate|].
  intros [= <-]. auto.
Qed.

Lemma truthy_of_orNull (v : option string) :
  Js.truthy v = match Js.orNull v with Some _ => true | None => false end.
Proof.
  unfold Js.orNull. destruct (Js.truthy v) eqn:T; [|reflexivity].
  destruct v; [reflexivity | discriminate T].
Qed.

Lemma orNull_nonempty (k : string) : k <> "" -> Js.orNull (Some k) = Some k.
Proof.
  intros N. unfold Js.orNull, Js.truthy.
  destruct (String.eqb_spec k "") as [->|_]; [congruence | reflexivity].
Qed.

Lemma mountedAfter_earlier (env : Environment) (n m : nat) :
  mountedAfter env n = true -> m <= n -> mountedAfter env m = true.
Proof.
  unfold mountedAfter. destruct (unmountAt env) as [k|]; [|reflexivity].
  rewrite !Nat.ltb_lt. lia.
Qed.

(** X11.  Initialization never throws: whatever the extension and the
    balance service do, the promise resolves. *)
Theorem initializeWallet_never_throws (env : Environment) :
  result (run (initializeWallet env)) = Js.Ok tt.
Proof.
  destruct env as [cfc cfp cf gfa gfn bal um].
  unfold run, initializeWallet, initializeWalletBody, initializeWalletCatch. unfold_async.
  split_answers; reflexivity.
Qed.

(** X12.  A run of initialization calls [setWalletState] at most once. *)
Theorem initializeWallet_commits_at_most_once (env : Environment) :
  commitCount (events (run (initializeWallet env))) <= 1.
Proof.
  destruct env as [cfc cfp cf gfa gfn bal um].
  unfold run, initializeWallet, initializeWalletBody, initializeWalletCatch. unfold_async.
  split_answers; lia.
Qed.

(** X13.  Initialization queries the extension in a fixed order and
    stops early: the connection check comes first, the permission check
    only after it, address and network (always both) only after the
    permission check, and the balance lookup last, for the non-empty
    address the extension returned. *)
Theorem initializeWallet_call_order (env : Environment) :
  let cs := calls (events (run (initializeWallet env))) in
  cs = [CheckFreighterConnection]
  \/ cs = [CheckFreighterConnection; CheckFreighterPermission]
  \/ cs = [CheckFreighterConnection; CheckFreighterPermission;
           GetFreighterAddress; GetFreighterNetwork]
  \/ exists key,
       key <> ""
       /\ getFreighterAddress env = Js.Ok {| AddressResult.address := Some key |}
       /\ cs = [CheckFreighterConnection; CheckFreighterPermission;
                GetFreighterAddress; GetFreighterNetwork; GetUSDCBalance key].
Proof.
  destruct env as [cfc cfp cf gfa gfn bal um].
  unfold run, initializeWallet, initializeWalletBody, initializeWalletCatch. unfold_async.
  split_answers; auto.
  all: right; right; right;
    match goal with
    | H : Js.orNull (AddressResult.address ?a) = Some ?k |- _ =>
        destruct a as [addr]; cbn in H; apply orNull_Some in H as [-> N];
        exists k; auto
    end.
Qed.

(** X14.  If the component unmounts while the connection check is
    pending, initialization does nothing more: no further call and no
    commit, whether the check resolved or rejected. *)
Theorem initializeWallet_unmounted_early (env : Environment) (k : nat) :
  unmountAt env = Some k -> k <= 1 ->
  events (run (initializeWallet env)) = [Called CheckFreighterConnection].
Proof.
  intros U K.
  assert (M : mountedAfter env 1 = false).
  { unfold mountedAfter. rewrite U. apply Nat.ltb_ge. lia. }
  unfold run, initializeWallet, initializeWalletBody, initializeWalletCatch. unfold_async.
  destruct (checkFreighterConnection env) as [cs|e]; rewrite M; reflexivity.
Qed.

Lemma initializeWallet_unmounted_early_witness :
  events (run (initializeWallet (Examples.walletAbsent (Some 1))))
  = [Called CheckFreighterConnection].
Proof.
  exact (initializeWallet_unmounted_early (Examples.walletAbsent (Some 1)) 1
           eq_refl (le_n 1)).
Defined.

(** X15.  When the extension is installed, connected and allowed, returns
    a non-empty address and a network, and the balance lookup resolves,
    initialization replaces the whole state by the connected one,
    whatever the prior state was, provided the component was still
    mounted when address and network arrived.  There is no check after
    the balance lookup: the commit is made even if the component
    unmounted while the lookup was pending. *)
Theorem initializeWallet_connected
    (env : Environment) (prev : WalletState)
    (cs : ConnectionStatus.t) (p : PermissionStatus.t)
    (key : string) (net : NetworkResult.t) (balance : option string) :
  checkFreighterConnection env = Js.Ok cs ->
  ConnectionStatus.isInstalled cs = true ->
  ConnectionStatus.isConnected cs = true ->
  checkFreighterPermission env = Js.Ok p ->
  PermissionStatus.isAllowed p = true ->
  getFreighterAddress env = Js.Ok {| AddressResult.address := Some key |} ->
  key <> "" ->
  getFreighterNetwork env = Js.Ok net ->
  getUSDCBalance env key = Js.Ok balance ->
  mountedAfter env 3 = true ->
  calls (events (run (initializeWallet env)))
  = [CheckFreighterConnection; CheckFreighterPermission;
     GetFreighterAddress; GetFreighterNetwork; GetUSDCBalance key]
  /\ finalState (run (initializeWallet env)) prev =
     {| isConnected := true;
        publicKey := Some key;
        network := Js.orNull (NetworkResult.network net);
        networkPassphrase := Js.orNull (NetworkResult.networkPassphrase net);
        isInstalled := true;
        isAllowed := true;
        isLoading := false;
        error := None;
        usdcBalance := balance |}.
Proof.
  intros Hcs Hi Hc Hp Ha Haddr Hk Hnet Hbal M3.
  pose proof (mountedAfter_earlier env 3 1 M3 ltac:(lia)) as M1.
  pose proof (mountedAfter_earlier env 3 2 M3 ltac:(lia)) as M2.
  unfold finalState, run, initializeWallet, initializeWalletBody. unfold_async.
  rewrite Hcs, M1. cbn. rewrite Hi. cbn.
  rewrite Hp, M2. cbn. rewrite Hc, Ha. cbn.
  rewrite Haddr, Hnet, M3. cbn.
  rewrite (orNull_nonempty key Hk), Hbal. cbn. auto.
Qed.

Lemma initializeWallet_connected_witness :
  let env := Examples.walletUnmountsDuringBalance in
  mountedAfter env 4 = false
  /\ calls (events (run (initializeWallet env)))
     = [CheckFreighterConnection; CheckFreighterPermission;
        GetFreighterAddress; GetFreighterNetwork; GetUSDCBalance "GABC"]
  /\ finalState (run (initializeWallet env)) initialState =
     {| isConnected := true;
        publicKey := Some "GABC";
        network := Some "TESTNET";
        networkPassphrase := Some "Test SDF Network ; September 2015";
        isInstalled := true;
        isAllowed := true;
        isLoading := false;
        error := None;
        usdcBalance := Some "12.50" |}.
Proof.
  split; [reflexivity|].
  exact (initializeWallet_connected Examples.walletUnmountsDuringBalance initialState
           _ _ "GABC" Examples.testNetwork (Some "12.50")
           eq_refl eq_refl eq_refl eq_refl eq_refl eq_refl ltac:(discriminate)
           eq_refl eq_refl eq_refl).
Defined.

(** X16.  When the extension is installed but not both connected and
    allowed, initialization asks for neither address, network nor
    balance; if still mounted it commits [isConnected = false],
    [isInstalled = true], the reported permission, [isLoading = false],
    no error and no balance, and keeps the prior [publicKey], [network]
    and [networkPassphrase]. *)
Theorem initializeWallet_not_connected
    (env : Environment) (prev : WalletState)
    (cs : ConnectionStatus.t) (p : PermissionStatus.t) :
  checkFreighterConnection env = Js.Ok cs ->
  ConnectionStatus.isInstalled cs = true ->
  checkFreighterPermission env = Js.Ok p ->
  ConnectionStatus.isConnected cs && PermissionStatus.isAllowed p = false ->
  mountedAfter env 2 = true ->
  calls (events (run (initializeWallet env)))
  = [CheckFreighterConnection; CheckFreighterPermission]
  /\ finalState (run (initializeWallet env)) prev =
     {| isConnected := false;
        publicKey := publicKey prev;
        network := network prev;
        networkPassphrase := networkPassphrase prev;
        isInstalled := true;
        isAllowed := PermissionStatus.isAllowed p;
        isLoading := false;
        error := None;
        usdcBalance := None |}.
Proof.
  intros Hcs Hi Hp Hc M2.
  pose proof (mountedAfter_earlier env 2 1 M2 ltac:(lia)) as M1.
  unfold finalState, run, initializeWallet, initializeWalletBody. unfold_async.
  rewrite Hcs, M1. cbn. rewrite Hi. cbn.
  rewrite Hp, M2. cbn. rewrite Hc. cbn. auto.
Qed.

Lemma initializeWallet_not_connected_witness :
  let env := Examples.walletNotAllowed in
  calls (events (run (initializeWallet env)))
  = [CheckFreighterConnection; CheckFreighterPermission]
  /\ finalState (run (initializeWallet env)) Examples.connectedState =
     {| isConnected := false;
        publicKey := Some "GABC";
        network := Some "TESTNET";
        networkPassphrase := Some "Test SDF Network ; September 2015";
        isInstalled := true;
        isAllowed := false;
        isLoading := false;
        error := None;
        usdcBalance := None |}.
Proof.
  exact (initializeWallet_not_connected Examples.walletNotAllowed Examples.connectedState
           _ _ eq_refl eq_refl eq_refl eq_refl eq_refl).
Defined.

(** *** getPublicKey *)

(** X17.  Once the captured state is connected with a non-empty key,
    [getPublicKey] returns that key at once: it calls nothing and commits
    nothing. *)
Theorem getPublicKey_connected_noop
    (env : Environment) (walletState : WalletState) (key : string) :
  isConnected walletState = true ->
  publicKey walletState = Some key ->
  key <> "" ->
  result (run (getPublicKey env walletState)) = Js.Ok key
  /\ events (run (getPublicKey env walletState)) = [].
Proof.
  intros C K N. unfold run, getPublicKey. unfold_async.
  rewrite C, K, (orNull_nonempty key N). cbn. auto.
Qed.

Lemma getPublicKey_connected_noop_witness :
  result (run (getPublicKey Examples.walletConnectRefused Examples.connectedState))
  = Js.Ok "GABC"
  /\ events (run (getPublicKey Examples.walletConnectRefused Examples.connectedState)) = [].
Proof.
  exact (getPublicKey_connected_noop Examples.walletConnectRefused Examples.connectedState
           "GABC" eq_refl eq_refl ltac:(discriminate)).
Defined.

(** X18.  Whenever [getPublicKey] resolves, it resolves with a non-empty
    key, and either nothing happened (the captured state was already
    connected with that key) or the committed state is connected with
    that key, installed, allowed and without error, with [isLoading]
    left as it was. *)
Theorem getPublicKey_resolves_with_key
    (env : Environment) (walletState prev : WalletState) (key : string) :
  result (run (getPublicKey env walletState)) = Js.Ok key ->
  key <> ""
  /\ ((events (run (getPublicKey env walletState)) = []
       /\ isConnected walletState = true /\ publicKey walletState = Some key)
      \/ (let s := finalState (run (getPublicKey env walletState)) prev in
          isConnected s = true /\ publicKey s = Some key
          /\ isInstalled s = true /\ isAllowed s = true
          /\ error s = None /\ isLoading s = isLoading prev)).
Proof.
  destruct env as [cfc cfp cf gfa gfn bal um].
  unfold finalState, run, getPublicKey. unfold_async.
  intros H. split_answers; try discriminate.
  all: injection H as <-.
  all: repeat match goal with
         | H : Js.orNull _ = Some _ |- _ => apply orNull_Some in H as [? ?]
         end.
  all: split; [assumption|].
  all: first [left; repeat split; assumption | right; cbn; repeat split].
Qed.

Lemma getPublicKey_resolves_with_key_witness :
  let r := run (getPublicKey Examples.walletReady initialState) in
  result r = Js.Ok "GABC"
  /\ "GABC" <> ""
  /\ ((events r = [] /\ isConnected initialState = true
       /\ publicKey initialState = Some "GABC")
      \/ (let s := finalState r initialState in
          isConnected s = true /\ publicKey s = Some "GABC"
          /\ isInstalled s = true /\ isAllowed s = true
          /\ error s = None /\ isLoading s = isLoading initialState)).
Proof.
  split; [reflexivity|].
  exact (getPublicKey_resolves_with_key Examples.walletReady initialState initialState
           "GABC" eq_refl).
Defined.

(** X19.  Whenever [getPublicKey] fails, for whatever reason (the connect
    request, its error field, a missing address, the network request or
    the balance lookup), it rethrows what was thrown after one commit that
    records the message as [error] ("Failed to get public key" when the
    thrown value is not an Error), clears the balance and keeps every
    other field. *)
Theorem getPublicKey_rethrows
    (env : Environment) (walletState prev : WalletState) (e : Js.thrown) :
  result (run (getPublicKey env walletState)) = Js.Throw e ->
  finalState (run (getPublicKey env walletState)) prev =
  {| isConnected := isConnected prev;
     publicKey := publicKey prev;
     network := network prev;
     networkPassphrase := networkPassphrase prev;
     isInstalled := isInstalled prev;
     isAllowed := isAllowed prev;
     isLoading := isLoading prev;
     error := Some (Js.messageOr e "Failed to get public key");
     usdcBalance := None |}.
Proof.
  destruct env as [cfc cfp cf gfa gfn bal um].
  unfold finalState, run, getPublicKey. unfold_async.
  intros H. split_answers; try discriminate.
  all: injection H as <-; reflexivity.
Qed.

Lemma getPublicKey_rethrows_witness :
  finalState (run (getPublicKey Examples.walletNetworkFails initialState))
    Examples.connectedState =
  {| isConnected := true;
     publicKey := Some "GABC";
     network := Some "TESTNET";
     networkPassphrase := Some "Test SDF Network ; September 2015";
     isInstalled := true;
     isAllowed := true;
     isLoading := true;
     error := Some "Failed to get public key";
     usdcBalance := None |}.
Proof.
  exact (getPublicKey_rethrows Examples.walletNetworkFails initialState
           Examples.connectedState Js.OtherValue eq_refl).
Defined.

(** X20.  When the captured state is not connected and the connect
    request comes back with a non-empty error field, [getPublicKey]
    throws an Error with that message without asking for the network or
    the balance, even if an address came back as well. *)
Theorem getPublicKey_error_field_wins
    (env : Environment) (walletState : WalletState)
    (cr : ConnectResult.t) (message : string) :
  isConnected walletState = false ->
  connectFreighter env = Js.Ok cr ->
  ConnectResult.error cr = Some message ->
  message <> "" ->
  result (run (getPublicKey env walletState)) = Js.Throw (Js.ErrorObject message)
  /\ calls (events (run (getPublicKey env walletState))) = [ConnectFreighter].
Proof.
  intros C Hcr He N. unfold run, getPublicKey. unfold_async.
  rewrite C, Hcr. cbn. rewrite He, (orNull_nonempty message N). cbn. auto.
Qed.

Lemma getPublicKey_error_field_wins_witness :
  let r := run (getPublicKey Examples.walletConnectRefused initialState) in
  result r = Js.Throw (Js.ErrorObject "User declined access")
  /\ calls (events r) = [ConnectFreighter].
Proof.
  exact (getPublicKey_error_field_wins Examples.walletConnectRefused initialState
           _ "User declined access" eq_refl eq_refl eq_refl ltac:(discriminate)).
Defined.

(** X21.  When the captured state is not connected and the connect
    request comes back without error and without a non-empty address,
    [getPublicKey] throws "No address returned from Freighter" and asks
    for neither the network nor the balance. *)
Theorem getPublicKey_no_address
    (env : Environment) (walletState : WalletState) (cr : ConnectResult.t) :
  isConnected walletState = false ->
  connectFreighter env = Js.Ok cr ->
  Js.truthy (ConnectResult.error cr) = false ->
  Js.truthy (ConnectResult.address cr) = false ->
  result (run (getPublicKey env walletState))
  = Js.Throw (Js.ErrorObject "No address returned from Freighter")
  /\ calls (events (run (getPublicKey env walletState))) = [ConnectFreighter].
Proof.
  intros C Hcr He Ha. unfold run, getPublicKey. unfold_async.
  rewrite C, Hcr. cbn. unfold Js.orNull. rewrite He, Ha. cbn. auto.
Qed.

Lemma getPublicKey_no_address_witness :
  let r := run (getPublicKey Examples.walletConnectEmpty initialState) in
  result r = Js.Throw (Js.ErrorObject "No address returned from Freighter")
  /\ calls (events r) = [ConnectFreighter].
Proof.
  exact (getPublicKey_no_address Examples.walletConnectEmpty initialState
           _ eq_refl eq_refl eq_refl eq_refl).
Defined.

(** *** connect *)

(** X22.  [connect] leaves [isLoading = false] on every exit path, and
    the final [error] tells how it ended: null when it resolved, the
    message of what it rethrew otherwise ("Failed to connect" when the
    thrown value is not an Error). *)
Theorem connect_loading_and_error (env : Environment) (walletState prev : WalletState) :
  let r := run (connect env walletState) in
  isLoading (finalState r prev) = false
  /\ error (finalState r prev)
     = match result r with
       | Js.Ok _ => None
       | Js.Throw e => Some (Js.messageOr e "Failed to connect")
       end.
Proof.
  destruct env as [cfc cfp cf gfa gfn bal um].
  unfold finalState, run, connect, getPublicKey. unfold_async.
  split_answers; auto.
Qed.

(** X23.  When [connect] fails, the connection fields are as they were
    before the call; only [isLoading], [error] and the balance (cleared)
    change. *)
Theorem connect_failure_keeps_connection
    (env : Environment) (walletState prev : WalletState) (e : Js.thrown) :
  result (run (connect env walletState)) = Js.Throw e ->
  finalState (run (connect env walletState)) prev =
  {| isConnected := isConnected prev;
     publicKey := publicKey prev;
     network := network prev;
     networkPassphrase := networkPassphrase prev;
     isInstalled := isInstalled prev;
     isAllowed := isAllowed prev;
     isLoading := false;
     error := Some (Js.messageOr e "Failed to connect");
     usdcBalance := None |}.
Proof.
  destruct env as [cfc cfp cf gfa gfn bal um].
  unfold finalState, run, connect, getPublicKey. unfold_async.
  intros H. split_answers; try discriminate.
  all: injection H as <-; reflexivity.
Qed.

Lemma connect_failure_keeps_connection_witness :
  finalState (run (connect Examples.walletConnectRefused initialState))
    Examples.connectedState =
  {| isConnected := true;
     publicKey := Some "GABC";
     network := Some "TESTNET";
     networkPassphrase := Some "Test SDF Network ; September 2015";
     isInstalled := true;
     isAllowed := true;
     isLoading := false;
     error := Some "User declined access";
     usdcBalance := None |}.
Proof.
  exact (connect_failure_keeps_connection Examples.walletConnectRefused initialState
           Examples.connectedState (Js.ErrorObject "User declined access") eq_refl).
Defined.

(** X24.  [connect] on a captured state that is already connected with a
    non-empty key calls nothing and resolves; all it does to the state is
    clear [error] and [isLoading]. *)
Theorem connect_when_connected
    (env : Environment) (walletState prev : WalletState) (key : string) :
  isConnected walletState = true ->
  publicKey walletState = Some key ->
  key <> "" ->
  calls (events (run (connect env walletState))) = []
  /\ result (run (connect env walletState)) = Js.Ok tt
  /\ finalState (run (connect env walletState)) prev =
     {| isConnected := isConnected prev;
        publicKey := publicKey prev;
        network := network prev;
        networkPassphrase := networkPassphrase prev;
        isInstalled := isInstalled prev;
        isAllowed := isAllowed prev;
        isLoading := false;
        error := None;
        usdcBalance := usdcBalance prev |}.
Proof.
  intros C K N. unfold finalState, run, connect, getPublicKey. unfold_async.
  rewrite C, K, (orNull_nonempty key N). cbn. auto.
Qed.

Lemma connect_when_connected_witness :
  let r := run (connect Examples.walletConnectRefused Examples.connectedState) in
  calls (events r) = []
  /\ result r = Js.Ok tt
  /\ finalState r Examples.connectedState =
     {| isConnected := true;
        publicKey := Some "GABC";
        network := Some "TESTNET";
        networkPassphrase := Some "Test SDF Network ; September 2015";
        isInstalled := true;
        isAllowed := true;
        isLoading := false;
        error := None;
        usdcBalance := Some "12.50" |}.
Proof.
  exact (connect_when_connected Examples.walletConnectRefused Examples.connectedState
           Examples.connectedState "GABC" eq_refl eq_refl ltac:(discriminate)).
Defined.

(** *** refreshConnection *)

(** X25.  [refreshConnection] never throws and always ends with
    [isLoading = false]. *)
Theorem refreshConnection_never_throws (env : Environment) (prev : WalletState) :
  result (run (refreshConnection env)) = Js.Ok tt
  /\ isLoading (finalState (run (refreshConnection env)) prev) = false.
Proof.
  destruct env as [cfc cfp cf gfa gfn bal um].
  unfold finalState, run, refreshConnection. unfold_async.
  split_answers; auto.
Qed.

(** X26.  [refreshConnection] always issues the connection, address and
    network requests, all three even when one of them rejects, never the
    permission check, and then at most the balance lookup, for a
    non-empty address. *)
Theorem refreshConnection_calls (env : Environment) :
  let cs := calls (events (run (refreshConnection env))) in
  cs = [CheckFreighterConnection; GetFreighterAddress; GetFreighterNetwork]
  \/ exists key,
       key <> ""
       /\ cs = [CheckFreighterConnection; GetFreighterAddress; GetFreighterNetwork;
                GetUSDCBalance key].
Proof.
  destruct env as [cfc cfp cf gfa gfn bal um].
  unfold run, refreshConnection. unfold_async.
  split_answers; auto.
  all: right;
    match goal with
    | H : Js.orNull _ = Some ?k |- _ => apply orNull_Some in H as [_ N]; exists k; auto
    end.
Qed.

(** X27.  When a refresh ends without error, the state it leaves does not
    depend on the state before: everything is replaced, [isAllowed] holds
    exactly when a public key is present, and [isConnected] implies
    [isAllowed]. *)
Theorem refreshConnection_success_replaces (env : Environment) (prev prev' : WalletState) :
  error (finalState (run (refreshConnection env)) prev) = None ->
  let s := finalState (run (refreshConnection env)) prev in
  s = finalState (run (refreshConnection env)) prev'
  /\ (isAllowed s = true <-> publicKey s <> None)
  /\ (isConnected s = true -> isAllowed s = true).
Proof.
  destruct env as [cfc cfp cf gfa gfn bal um].
  unfold finalState, run, refreshConnection. unfold_async.
  intros H. split_answers; try discriminate.
  all: split; [reflexivity|].
  all: rewrite truthy_of_orNull;
    match goal with H : Js.orNull _ = _ |- _ => rewrite H end;
    rewrite ?andb_false_r; intuition (try discriminate; try congruence).
Qed.

Lemma refreshConnection_success_replaces_witness :
  let s := finalState (run (refreshConnection Examples.walletNotConnected)) initialState in
  s = finalState (run (refreshConnection Examples.walletNotConnected)) Examples.connectedState
  /\ (isAllowed s = true <-> publicKey s <> None)
  /\ (isConnected s = true -> isAllowed s = true).
Proof.
  exact (refreshConnection_success_replaces Examples.walletNotConnected initialState
           Examples.connectedState eq_refl).
Defined.

(** X28.  When a refresh ends with an error, it has kept the connection
    fields of the state before ([isConnected], [publicKey], [network],
    [networkPassphrase], [isInstalled], [isAllowed]) and cleared the
    balance. *)
Theorem refreshConnection_failure_keeps_connection (env : Environment) (prev : WalletState) :
  error (finalState (run (refreshConnection env)) prev) <> None ->
  exists message,
    finalState (run (refreshConnection env)) prev =
    {| isConnected := isConnected prev;
       publicKey := publicKey prev;
       network := network prev;
       networkPassphrase := networkPassphrase prev;
       isInstalled := isInstalled prev;
       isAllowed := isAllowed prev;
       isLoading := false;
       error := Some message;
       usdcBalance := None |}.
Proof.
  destruct env as [cfc cfp cf gfa gfn bal um].
  unfold finalState, run, refreshConnection. unfold_async.
  intros H. split_answers; try (exfalso; apply H; reflexivity).
  all: eexists; reflexivity.
Qed.

Lemma refreshConnection_failure_keeps_connection_witness :
  exists message,
    finalState (run (refreshConnection Examples.walletNetworkFails)) Examples.connectedState =
    {| isConnected := true;
       publicKey := Some "GABC";
       network := Some "TESTNET";
       networkPassphrase := Some "Test SDF Network ; September 2015";
       isInstalled := true;
       isAllowed := true;
       isLoading := false;
       error := Some message;
       usdcBalance := None |}.
Proof.
  exact (refreshConnection_failure_keeps_connection Examples.walletNetworkFails
           Examples.connectedState ltac:(discriminate)).
Defined.

(** *** What every reachable state looks like *)

Lemma orNull_not_empty (v : option string) : Js.orNull v <> Some "".
Proof.
  intros H. apply orNull_Some in H as [_ N]. congruence.
Qed.

Ltac close_normalised :=
  unfold Spec.normalised in *; cbn in *;
  repeat match goal with
    | H : _ /\ _ |- _ => destruct H
    | H : Js.orNull _ = Some _ |- _ => apply orNull_Some in H as [_ ?]
    end;
  repeat split;
  try assumption; try apply orNull_not_empty; try discriminate; try congruence;
  try (intros F; exfalso; apply F; reflexivity).

Lemma commit_normalised (update : WalletState -> WalletState) (s : WalletState) :
  (exists env, In (Commit update) (events (run (initializeWallet env))))
  \/ (exists env snapshot, In (Commit update) (events (run (getPublicKey env snapshot))))
  \/ (exists env snapshot, In (Commit update) (events (run (connect env snapshot))))
  \/ In (Commit update) (events (run disconnect))
  \/ (exists env, In (Commit update) (events (run (refreshConnection env)))) ->
  Spec.normalised s -> Spec.normalised (update s).
Proof.
  intros [[env H]|[[env [snap H]]|[[env [snap H]]|[H|[env H]]]]] I;
    try destruct env as [cfc cfp cf gfa gfn bal um];
    unfold run, initializeWallet, initializeWalletBody, initializeWalletCatch,
      connect, getPublicKey, refreshConnection, disconnect in H;
    unfold_async; split_answers; pick_commit; close_normalised.
Qed.

Lemma reachable_normalised (s : WalletState) : reachable s -> Spec.normalised s.
Proof.
  unfold reachable. intros R.
  induction R as [ | env u s A Hin R IH | env snap u s Rsnap _ Hin R IH
                   | env snap u s Rsnap _ Hin R IH | u s Hin R IH | env u s Hin R IH ].
  - unfold Spec.normalised. cbn. repeat split; try discriminate. intros F. now elim F.
  - apply commit_normalised; eauto.
  - apply commit_normalised; eauto.
  - apply commit_normalised; eauto 6.
  - apply commit_normalised; eauto 6.
  - apply commit_normalised; eauto 8.
Qed.

(** X29.  In every reachable state, a balance is present only together
    with a public key. *)
Theorem reachable_balance_has_key (s : WalletState) :
  reachable s -> usdcBalance s <> None -> publicKey s <> None.
Proof.
  intros R. apply (reachable_normalised s R).
Qed.

Lemma reachable_balance_has_key_witness :
  usdcBalance Examples.connectedState <> None
  /\ publicKey Examples.connectedState <> None.
Proof.
  split; [discriminate|].
  exact (reachable_balance_has_key Examples.connectedState
           (connectedState_reachable (fun _ => True)) ltac:(discriminate)).
Defined.

(** X30.  In every reachable state, [publicKey], [network] and
    [networkPassphrase] are null or non-empty: an empty string returned
    by the extension is never stored. *)
Theorem reachable_no_empty_strings (s : WalletState) :
  reachable s ->
  publicKey s <> Some "" /\ network s <> Some "" /\ networkPassphrase s <> Some "".
Proof.
  intros R. destruct (reachable_normalised s R) as (K & N & P & _). auto.
Qed.

Lemma reachable_no_empty_strings_witness :
  publicKey Examples.connectedState <> Some ""
  /\ network Examples.connectedState <> Some ""
  /\ networkPassphrase Examples.connectedState <> Some "".
Proof.
  exact (reachable_no_empty_strings Examples.connectedState
           (connectedState_reachable (fun _ => True))).
Defined.

End WalletFacts.

(* ================================================================== *)
(** ** services/blockchain.ts: further properties *)
(* ================================================================== *)

Section BlockchainMore.

Import Blockchain.

(** *** Substrings of concatenations *)

Lemma substring_zero_length (s : string) (n : nat) : substring n 0 s = "".
Proof.
  revert n. induction s as [|c s IH]; intros [|n]; cbn; auto.
Qed.

Lemma substring_app_prefix (a b : string) :
  substring 0 (String.length a) (a ++ b) = a.
Proof. induction a as [|c a IH]; cbn; [apply substring_zero_length | now rewrite IH]. Qed.

Lemma substring_app_skip (a b : string) (k m : nat) :
  substring (String.length a + k) m (a ++ b) = substring k m b.
Proof. induction a as [|c a IH]; cbn; auto. Qed.

(** The pieces [truncateHash] is made of, when it truncates. *)
Lemma truncateHash_pieces (hash : string) (n : Z) :
  (1 <= n)%Z -> (2 * n < Z.of_nat (String.length hash))%Z ->
  exists a b,
    a = substring 0 (Z.to_nat n) hash
    /\ b = substring (String.length hash - Z.to_nat n) (Z.to_nat n) hash
    /\ String.length a = Z.to_nat n /\ String.length b = Z.to_nat n
    /\ truncateHash hash n = a ++ "..." ++ b.
Proof.
  intros Hn Hlen. destruct (truncateHash_long hash n Hn Hlen) as [E _].
  eexists _, _. split; [reflexivity|]. split; [reflexivity|].
  rewrite !substring_length by lia. auto.
Qed.

Lemma truncateHash_of_pieces (a b : string) (n : Z) :
  (1 <= n)%Z -> String.length a = Z.to_nat n -> String.length b = Z.to_nat n ->
  truncateHash (a ++ "..." ++ b) n = a ++ "..." ++ b.
Proof.
  intros Hn La Lb.
  assert (L : String.length (a ++ "..." ++ b) = Z.to_nat n + 3 + Z.to_nat n).
  { rewrite !length_append. change (String.length "...") with 3. lia. }
  destruct (truncateHash_long (a ++ "..." ++ b) n Hn) as [E _]; [lia|].
  rewrite E. f_equal.
  - rewrite <- La. apply substring_app_prefix.
  - f_equal. rewrite L.
    replace (Z.to_nat n + 3 + Z.to_nat n - Z.to_nat n) with (String.length a + 3) by lia.
    rewrite substring_app_skip.
    change 3 with (String.length "..." + 0). rewrite substring_app_skip.
    rewrite <- Lb. apply substring_all.
Qed.

(** X1.  For every length n >= 1, truncating twice is truncating once. *)
Theorem truncateHash_idempotent (hash : string) (n : Z) :
  (1 <= n)%Z -> truncateHash (truncateHash hash n) n = truncateHash hash n.
Proof.
  intros Hn.
  destruct (Z.le_gt_cases (Z.of_nat (String.length hash)) (2 * n)) as [S|L].
  - now rewrite !(truncateHash_short hash n S).
  - destruct (truncateHash_pieces hash n Hn) as (a & b & _ & _ & La & Lb & E); [lia|].
    rewrite E. now apply truncateHash_of_pieces.
Qed.

Lemma truncateHash_idempotent_witness :
  (1 <= 2)%Z
  /\ truncateHash (truncateHash "0123456789" 2) 2 = truncateHash "0123456789" 2.
Proof.
  split; [lia|]. exact (truncateHash_idempotent "0123456789" 2 ltac:(lia)).
Defined.

(** X2.  For every length n >= 0 not exceeding the hash, the result
    starts with the first n characters of the hash and ends with its
    last n characters, whether or not anything was cut. *)
Theorem truncateHash_keeps_ends (hash : string) (n : Z) :
  (0 <= n <= Z.of_nat (String.length hash))%Z ->
  let r := truncateHash hash n in
  substring 0 (Z.to_nat n) r = substring 0 (Z.to_nat n) hash
  /\ substring (String.length r - Z.to_nat n) (Z.to_nat n) r
     = substring (String.length hash - Z.to_nat n) (Z.to_nat n) hash.
Proof.
  intros [H0 Hn] r. subst r.
  destruct (Z.le_gt_cases (Z.of_nat (String.length hash)) (2 * n)) as [S|L].
  - rewrite (truncateHash_short hash n S). auto.
  - destruct (Z.eq_dec n 0) as [->|Nz].
    + cbn [Z.to_nat]. rewrite !substring_zero_length. auto.
    + destruct (truncateHash_pieces hash n) as (a & b & Ea & Eb & La & Lb & E); [lia..|].
      rewrite E, <- Ea, <- Eb. split.
      * rewrite <- La. apply substring_app_prefix.
      * rewrite !length_append. change (String.length "...") with 3.
        replace (String.length a + (3 + String.length b) - Z.to_nat n)
          with (String.length a + 3) by lia.
        rewrite substring_app_skip.
        change 3 with (String.length "..." + 0). rewrite substring_app_skip.
        rewrite <- Lb. apply substring_all.
Qed.

Lemma truncateHash_keeps_ends_witness :
  substring 0 2 (truncateHash "0123456789" 2) = "01"
  /\ substring 5 2 (truncateHash "0123456789" 2) = "89".
Proof.
  exact (truncateHash_keeps_ends "0123456789" 2 ltac:(cbn; lia)).
Defined.

(** X3.  For every length n >= 1 the result is never more than two
    characters longer than the hash, and it is longer than the hash
    exactly when the hash has 2n+1 or 2n+2 characters: "truncating" such
    a hash lengthens it. *)
Theorem truncateHash_can_lengthen (hash : string) (n : Z) :
  (1 <= n)%Z ->
  let len := Z.of_nat (String.length hash) in
  let out := Z.of_nat (String.length (truncateHash hash n)) in
  (out <= len + 2)%Z
  /\ ((len < out)%Z <-> (len = 2 * n + 1 \/ len = 2 * n + 2)%Z).
Proof.
  intros Hn len out. subst len out.
  destruct (Z.le_gt_cases (Z.of_nat (String.length hash)) (2 * n)) as [S|L].
  - rewrite (truncateHash_short hash n S). lia.
  - destruct (truncateHash_long hash n Hn) as [_ E]; [lia|]. rewrite E. lia.
Qed.

Lemma truncateHash_can_lengthen_witness :
  (1 <= 1)%Z
  /\ (let len := Z.of_nat (String.length "abc") in
      let out := Z.of_nat (String.length (truncateHash "abc" 1)) in
      (out <= len + 2)%Z
      /\ ((len < out)%Z <-> (len = 2 * 1 + 1 \/ len = 2 * 1 + 2)%Z)).
Proof.
  split; [lia | apply (truncateHash_can_lengthen "abc" 1); lia].
Defined.

(** *** The status shown for a property *)

Section StatusFacts.

Variable request : string -> Js.outcome (option Envelope.t).
Variable now : string.

(** X4.  The badge of a freshly fetched status is green exactly when the
    verification result is valid and red otherwise: the yellow "Not
    Verified" badge never comes out of [getPropertyBlockchainStatus]. *)
Theorem fetched_status_badge (propertyId : string) :
  exists v st,
    verifyPropertyWithBlockchain request propertyId = Js.Ok v
    /\ getPropertyBlockchainStatus request now propertyId = Js.Ok st
    /\ formatBlockchainStatus st
       = (if isValid v then Spec.verifiedBadge else Spec.failedBadge).
Proof.
  destruct (verifyPropertyWithBlockchain_total request propertyId) as [v Hv].
  unfold getPropertyBlockchainStatus. rewrite Hv. cbn.
  eexists v, _. split; [reflexivity|]. split; [reflexivity|].
  unfold formatBlockchainStatus. cbn. destruct (isValid v); reflexivity.
Qed.

(** X5.  When the request fails in any way (it rejects, resolves with
    nothing, or with an envelope lacking success or data), the status
    reports a data-integrity failure: the server's error message and the
    "Unknown error" fallback never reach the status. *)
Theorem failed_request_status (propertyId : string) :
  (~ exists d, Spec.succeededWith
                 (request ("/properties/" ++ propertyId ++ "/verify")) d) ->
  getPropertyBlockchainStatus request now propertyId
  = Js.Ok {| isVerified := false;
             blockchainHash := None;
             lastVerified := Some now;
             error := Some "Data integrity check failed" |}.
Proof.
  intros N. unfold getPropertyBlockchainStatus, verifyPropertyWithBlockchain.
  unfold Spec.succeededWith in N.
  destruct (request ("/properties/" ++ propertyId ++ "/verify"))
    as [[[ [|] [d|] err msg]|]|e]; cbn; try reflexivity.
  exfalso. apply N. exists d. eexists. repeat split.
Qed.

End StatusFacts.

Lemma failed_request_status_witness :
  getPropertyBlockchainStatus Examples.rejectingRequest Examples.timestamp "p1"
  = Js.Ok {| isVerified := false;
             blockchainHash := None;
             lastVerified := Some Examples.timestamp;
             error := Some "Data integrity check failed" |}.
Proof.
  apply (failed_request_status Examples.rejectingRequest Examples.timestamp "p1").
  intros (d & e & E & _). discriminate E.
Defined.

(** *** Explorer URLs *)

Lemma stripTrailingSlashes_slashes (k : nat) : Js.stripTrailingSlashes (Js.slashes k) = "".
Proof. induction k as [|k IH]; cbn; [reflexivity | now rewrite IH]. Qed.

Lemma stripTrailingSlashes_app_slashes (s : string) (k : nat) :
  Js.stripTrailingSlashes (s ++ Js.slashes k) = Js.stripTrailingSlashes s.
Proof.
  induction s as [|c s IH]; cbn.
  - apply stripTrailingSlashes_slashes.
  - now rewrite IH.
Qed.

Lemma orElse_nonempty (c : ascii) (s d : string) : Js.orElse (Some (String c s)) d = String c s.
Proof. reflexivity. Qed.

(** X6.  When the options name no network, the network segment of the
    URL is what [getBlockchainNetwork] returns; it is never empty, and it
    follows a base that does not end with a slash. *)
Theorem explorerUrl_default_network
    (env : ProcessEnv) (resourceId : string) (opts : option ExplorerOpts) :
  Js.optChain opts network = None ->
  exists base type,
    Js.lastChar base <> Some "/"%char
    /\ getBlockchainNetwork env <> ""
    /\ type <> ""
    /\ getBlockchainExplorerUrl env resourceId opts
       = base ++ "/" ++ getBlockchainNetwork env ++ "/" ++ type ++ "/" ++ resourceId.
Proof.
  intros H. unfold getBlockchainExplorerUrl, getBlockchainNetwork.
  rewrite H. cbn [option_map].
  eexists _, _. split; [apply stripTrailingSlashes_last|].
  split; [|split; [|reflexivity]].
  - destruct (env "NEXT_PUBLIC_STELLAR_NETWORK") as [[|c s]|]; discriminate.
  - destruct (Js.optChain opts resourceType) as [[]|]; discriminate.
Qed.

Lemma explorerUrl_default_network_witness :
  exists base type,
    Js.lastChar base <> Some "/"%char
    /\ getBlockchainNetwork Examples.accountEverywhere <> ""
    /\ type <> ""
    /\ getBlockchainExplorerUrl Examples.accountEverywhere "abc" None
       = base ++ "/" ++ getBlockchainNetwork Examples.accountEverywhere
         ++ "/" ++ type ++ "/" ++ "abc".
Proof.
  exact (explorerUrl_default_network Examples.accountEverywhere "abc" None eq_refl).
Defined.

(** X7.  With a non-empty base URL and a network given in the options,
    the URL does not depend on the environment. *)
Theorem explorerUrl_options_override_env
    (env env' : ProcessEnv) (resourceId : string)
    (rt : option ExplorerResource) (nw : Network) (base : string) :
  base <> "" ->
  let opts := Some {| resourceType := rt; network := Some nw; baseUrl := Some base |} in
  getBlockchainExplorerUrl env resourceId opts
  = getBlockchainExplorerUrl env' resourceId opts.
Proof.
  intros B opts. subst opts. unfold getBlockchainExplorerUrl. cbn.
  destruct base as [|c base]; [congruence|].
  destruct nw; reflexivity.
Qed.

Lemma explorerUrl_options_override_env_witness :
  getBlockchainExplorerUrl Examples.emptyEnv "abc"
    (Some (Examples.publicContract "https://x.com/"))
  = getBlockchainExplorerUrl Examples.accountEverywhere "abc"
      (Some (Examples.publicContract "https://x.com/")).
Proof.
  exact (explorerUrl_options_override_env Examples.emptyEnv Examples.accountEverywhere
           "abc" (Some contract) public "https://x.com/" ltac:(discriminate)).
Defined.

(** X8.  The number of trailing slashes of the base URL given in the
    options does not matter. *)
Theorem explorerUrl_trailing_slashes
    (env : ProcessEnv) (resourceId : string)
    (rt : option ExplorerResource) (nw : option Network) (base : string) (k : nat) :
  base <> "" ->
  getBlockchainExplorerUrl env resourceId
    (Some {| resourceType := rt; network := nw; baseUrl := Some (base ++ Js.slashes k) |})
  = getBlockchainExplorerUrl env resourceId
      (Some {| resourceType := rt; network := nw; baseUrl := Some base |}).
Proof.
  intros B. unfold getBlockchainExplorerUrl. cbn [Js.optChain baseUrl network resourceType].
  destruct base as [|c base]; [congruence|].
  change (String c base ++ Js.slashes k) with (String c (base ++ Js.slashes k)).
  rewrite !orElse_nonempty.
  change (String c (base ++ Js.slashes k)) with (String c base ++ Js.slashes k).
  now rewrite stripTrailingSlashes_app_slashes.
Qed.

Lemma explorerUrl_trailing_slashes_witness :
  getBlockchainExplorerUrl Examples.emptyEnv "abc"
    (Some (Examples.publicContract ("https://x.com" ++ Js.slashes 3)))
  = getBlockchainExplorerUrl Examples.emptyEnv "abc"
      (Some (Examples.publicContract "https://x.com")).
Proof.
  exact (explorerUrl_trailing_slashes Examples.emptyEnv "abc" (Some contract) (Some public)
           "https://x.com" 3 ltac:(discriminate)).
Defined.


End BlockchainMore.

(* ================================================================== *)
(** ** routes/property.route.ts: properties *)
(* ================================================================== *)

Section RouteFacts.

Import Routes.

(** X10.  Every registered route that is not a GET runs
    [authenticateToken] before anything else, and the routes that do not
    start with [authenticateToken] are GET routes on one of the five
    public paths. *)
Theorem router_auth_gate (r : Route) :
  In r router ->
  (method r <> GET -> exists rest, handlers r = authenticateToken :: rest)
  /\ (hd_error (handlers r) <> Some authenticateToken ->
      method r = GET /\ In (path r) publicPaths).
Proof.
  intros H. cbn in H.
  repeat (destruct H as [<-|H]; [cbn; split; [intros N; try congruence; eauto
                                            | intros N; try congruence; auto 10]|]).
  destruct H.
Qed.

Lemma router_auth_gate_witness :
  let r := {| method := DELETE; path := "/:id";
              handlers := [authenticateToken; validatePropertyId;
                           deletePropertyController] |} in
  In r router
  /\ (method r <> GET -> exists rest, handlers r = authenticateToken :: rest)
  /\ (hd_error (handlers r) <> Some authenticateToken ->
      method r = GET /\ In (path r) publicPaths).
Proof.
  cbv zeta.
  assert (H : In {| method := DELETE; path := "/:id";
                    handlers := [authenticateToken; validatePropertyId;
                                 deletePropertyController] |} router)
    by (cbn; auto 10).
  exact (conj H (router_auth_gate _ H)).
Defined.

End RouteFacts.
